(** * Pyproject2uPyPackage: manifest derivation and validation

    A shallow embedding of [src/setup2upypackage/pyproject2upypackage.py].

    The class derives a MicroPython [package.json] manifest from the parsed
    [pyproject.toml] of a project and compares it with an existing manifest.
    Python values are embedded as the inductive type [value]; exceptions
    are results; the logger and the file system are threaded as state.
    Libraries the class calls (setuptools, pathlib's glob, changelog2version,
    importlib, json, deepdiff) are the fields of the record [Env].  An
    instance is taken after [__init__], with [pyproject.toml] already
    parsed; [load_module] followed by [getattr] is one collaborator. *)

From Stdlib Require Import String Ascii List Bool ZArith NArith Lia Permutation Sorted.
From Stdlib Require Import DecimalString.
Import ListNotations.

Local Open Scope string_scope.
Local Open Scope list_scope.

Notation "s +:+ t" := (String.append s t) (at level 60, right associativity).

(** ** Python values and exceptions *)

(** The values [tomllib] and [json] hand to the class.  TOML floats and
    date-times and JSON floats are not part of the model; a tuple is
    embedded as the list of its items.  A [str] is the sequence of its
    UTF-8 bytes, whose order is the order of Python's code points. *)
#[warnings="-register-all"]
Inductive value : Type :=
| VNone
| VBool (b : bool)
| VInt (z : Z)
| VStr (s : string)
| VList (l : list value)
| VDict (d : list (string * value)).

(** A Python [dict] with [str] keys, in insertion order. *)
Definition dict := list (string * value).

(** Modelled from the spec: [Setup2uPyPackageError], the typed domain
    error of the package, is declared in a sibling module and carries
    its message.  The other exceptions are Python's own. *)
Inductive exn : Type :=
| TypeError
| KeyError (key : string)
| IndexError
| AttributeError (attr : string)
| ValueError
| FileNotFoundError
| OSError
| JSONDecodeError
| SystemExit (msg : string)
| Setup2uPyPackageError (msg : string).

Inductive res (A : Type) : Type :=
| Ok (a : A)
| Err (e : exn).
Arguments Ok {A} a.
Arguments Err {A} e.

Definition rbind {A B} (r : res A) (k : A -> res B) : res B :=
  match r with
  | Ok a => k a
  | Err e => Err e
  end.

Notation "x <-? r ;; k" := (rbind r (fun x => k))
  (at level 61, r at next level, right associativity).

(** Induction over [value] that reaches the items of lists and dicts. *)
Section ValueInd.
Variable P : value -> Prop.
Hypothesis HNone : P VNone.
Hypothesis HBool : forall b, P (VBool b).
Hypothesis HInt : forall z, P (VInt z).
Hypothesis HStr : forall s, P (VStr s).
Hypothesis HList : forall l, Forall P l -> P (VList l).
Hypothesis HDict : forall d, Forall (fun kv => P (snd kv)) d -> P (VDict d).

Fixpoint value_ind' (v : value) : P v :=
  match v with
  | VNone => HNone
  | VBool b => HBool b
  | VInt z => HInt z
  | VStr s => HStr s
  | VList l =>
      HList l ((fix go (l : list value) : Forall P l :=
                  match l with
                  | [] => Forall_nil P
                  | x :: l' => Forall_cons x (value_ind' x) (go l')
                  end) l)
  | VDict d =>
      HDict d ((fix go (d : list (string * value))
                 : Forall (fun kv => P (snd kv)) d :=
                  match d with
                  | [] => Forall_nil _
                  | kv :: d' =>
                      Forall_cons (P := fun kv => P (snd kv)) kv
                        (value_ind' (snd kv)) (go d')
                  end) d)
  end.
End ValueInd.

(** ** Strings *)

Module Str.

(** [sep in s] for strings. *)
Fixpoint contains (sub s : string) : bool :=
  String.prefix sub s ||
  match s with
  | EmptyString => false
  | String _ s' => contains sub s'
  end.

(** [s.split(c)] for a one-character separator. *)
Fixpoint split (c : ascii) (s : string) : list string :=
  match s with
  | EmptyString => [EmptyString]
  | String a s' =>
      if Ascii.eqb a c then EmptyString :: split c s'
      else match split c s' with
           | h :: t => String a h :: t
           | [] => [String a EmptyString]
           end
  end.

(** [sep.join(l)]. *)
Definition join (sep : string) (l : list string) : string :=
  String.concat sep l.

(** [s.replace(old, new)] for a non-empty [old]: every occurrence, left
    to right, without overlap.  [skip] counts the characters of a match
    still to be dropped. *)
Fixpoint replace_from (old new : string) (skip : nat) (s : string) : string :=
  match s with
  | EmptyString => EmptyString
  | String a s' =>
      match skip with
      | S k => replace_from old new k s'
      | O =>
          if String.prefix old s
          then new +:+ replace_from old new (String.length old - 1) s'
          else String a (replace_from old new 0 s')
      end
  end.

Definition replace (old new s : string) : string :=
  replace_from old new 0 s.

(** [s.endswith(suffix)]. *)
Fixpoint endswith (suffix s : string) : bool :=
  String.eqb suffix s ||
  match s with
  | EmptyString => false
  | String _ s' => endswith suffix s'
  end.


End Str.

(** ** Dictionaries *)

Module Dict.

(** [d[k]] as an option: the first binding of [k]. *)
Fixpoint lookup {A} (k : string) (d : list (string * A)) : option A :=
  match d with
  | [] => None
  | (k', v) :: d' => if String.eqb k k' then Some v else lookup k d'
  end.

(** [d[k] = v]: an existing key keeps its place, a new one goes last. *)
Fixpoint set {A} (k : string) (v : A) (d : list (string * A))
  : list (string * A) :=
  match d with
  | [] => [(k, v)]
  | (k', v') :: d' =>
      if String.eqb k k' then (k, v) :: d' else (k', v') :: set k v d'
  end.

(** [d.pop(k, None)], the returned item dropped. *)
Fixpoint pop {A} (k : string) (d : list (string * A)) : list (string * A) :=
  match d with
  | [] => []
  | (k', v') :: d' =>
      if String.eqb k k' then d' else (k', v') :: pop k d'
  end.

(** Keys are unique, as in every [dict] Python builds. *)
Definition wf {A} (d : list (string * A)) : Prop := NoDup (map fst d).

End Dict.

(** ** Operations of the Python data model *)

Module Py.

(** [bool(v)]. *)
Definition truthy (v : value) : bool :=
  match v with
  | VNone => false
  | VBool b => b
  | VInt z => negb (Z.eqb z 0)
  | VStr s => negb (String.eqb s "")
  | VList l => match l with [] => false | _ => true end
  | VDict d => match d with [] => false | _ => true end
  end.

(** [v.get(k, default)]: only a [dict] has the method. *)
Definition get (k : string) (default : value) (v : value) : res value :=
  match v with
  | VDict d => Ok (match Dict.lookup k d with Some x => x | None => default end)
  | _ => Err (AttributeError "get")
  end.

(** [v[k]] for a [str] key [k]. *)
Definition getitem (k : string) (v : value) : res value :=
  match v with
  | VDict d => match Dict.lookup k d with
               | Some x => Ok x
               | None => Err (KeyError k)
               end
  | _ => Err TypeError
  end.

(** [v[0]]. *)
Definition getitem0 (v : value) : res value :=
  match v with
  | VList (x :: _) => Ok x
  | VList [] => Err IndexError
  | VStr (String a _) => Ok (VStr (String a EmptyString))
  | VStr EmptyString => Err IndexError
  | VDict _ => Err (KeyError "0")
  | _ => Err TypeError
  end.

(** [iter(v)]: the items a [for] loop or a comprehension visits. *)
Definition iter (v : value) : res (list value) :=
  match v with
  | VList l => Ok l
  | VStr s => Ok (map (fun a => VStr (String a EmptyString))
                      (list_ascii_of_string s))
  | VDict d => Ok (map (fun kv => VStr (fst kv)) d)
  | _ => Err TypeError
  end.

Definition as_int (b : bool) : Z := if b then 1%Z else 0%Z.

(** [a == b]. *)
Fixpoint eq (a b : value) {struct a} : bool :=
  match a, b with
  | VNone, VNone => true
  | VBool x, VBool y => Bool.eqb x y
  | VBool x, VInt y => Z.eqb (as_int x) y
  | VInt x, VBool y => Z.eqb x (as_int y)
  | VInt x, VInt y => Z.eqb x y
  | VStr s, VStr t => String.eqb s t
  | VList l, VList m =>
      (fix go (l m : list value) {struct l} : bool :=
         match l, m with
         | [], [] => true
         | x :: l', y :: m' => eq x y && go l' m'
         | _, _ => false
         end) l m
  | VDict d, VDict e =>
      Nat.eqb (List.length d) (List.length e) &&
      (fix go (d : list (string * value)) : bool :=
         match d with
         | [] => true
         | (k, v) :: d' =>
             match Dict.lookup k e with
             | Some v' => eq v v'
             | None => false
             end && go d'
         end) d
  | _, _ => false
  end.

(** [a < b].  Numbers and strings compare among themselves, lists
    compare at their first differing item; everything else raises. *)
Fixpoint lt (a b : value) {struct a} : res bool :=
  match a, b with
  | VBool x, VBool y => Ok (Z.ltb (as_int x) (as_int y))
  | VBool x, VInt y => Ok (Z.ltb (as_int x) y)
  | VInt x, VBool y => Ok (Z.ltb x (as_int y))
  | VInt x, VInt y => Ok (Z.ltb x y)
  | VStr s, VStr t => Ok (String.ltb s t)
  | VList l, VList m =>
      (fix go (l m : list value) {struct l} : res bool :=
         match l, m with
         | [], [] => Ok false
         | [], _ :: _ => Ok true
         | _ :: _, [] => Ok false
         | x :: l', y :: m' => if eq x y then go l' m' else lt x y
         end) l m
  | _, _ => Err TypeError
  end.

(** One step of [list.sort()]: [x] stood before every item of the
    sorted [l], so it passes only the items strictly below it. *)
Fixpoint insert (x : value) (l : list value) : res (list value) :=
  match l with
  | [] => Ok [x]
  | y :: l' =>
      b <-? lt y x ;;
      if b then (r <-? insert x l' ;; Ok (y :: r)) else Ok (x :: l)
  end.

(** [l.sort()]: the stable ascending order under [<].  Where every two
    items compare, this is the list Python leaves; where some items do
    not, Python raises [TypeError] at the first comparison that fails,
    and so does this model at the first such pair its insertions meet. *)
Fixpoint sort (l : list value) : res (list value) :=
  match l with
  | [] => Ok []
  | x :: l' => r <-? sort l' ;; insert x r
  end.

(** [dict(v)] for a loaded JSON document: the shallow copy of an
    object.  Any other document is reported as [TypeError]; Python
    rejects those too, save for an array of two-item entries. *)
Definition to_dict (v : value) : res dict :=
  match v with
  | VDict d => Ok d
  | _ => Err TypeError
  end.

(** [v.split(c)]: a [str] method. *)
Definition split (c : ascii) (v : value) : res (list string) :=
  match v with
  | VStr s => Ok (Str.split c s)
  | _ => Err (AttributeError "split")
  end.

(** [v.replace(old, new)]: a [str] method. *)
Definition replace (old new : string) (v : value) : res string :=
  match v with
  | VStr s => Ok (Str.replace old new s)
  | _ => Err (AttributeError "replace")
  end.

(** [sub in v]. *)
Definition contains (sub : string) (v : value) : res bool :=
  match v with
  | VStr s => Ok (Str.contains sub s)
  | VList l => Ok (existsb (eq (VStr sub)) l)
  | VDict d => Ok (match Dict.lookup sub d with Some _ => true | None => false end)
  | _ => Err TypeError
  end.

End Py.

(** ** Paths *)

(** [pathlib.PurePosixPath]: whether the path starts at the root, and its
    components.  Parsing drops empty and ["."] components and keeps
    [".."]; a leading double slash is read as a single one. *)
Record Path : Type := mkPath { anchored : bool; parts : list string }.

Module PathOps.

Definition is_component (c : string) : bool :=
  negb (String.eqb c "") && negb (String.eqb c ".").

(** [Path(s)]. *)
Definition of_str (s : string) : Path :=
  {| anchored := String.prefix "/" s;
     parts := filter is_component (Str.split "/" s) |}.

(** [str(p)]. *)
Definition str (p : Path) : string :=
  match anchored p, parts p with
  | false, [] => "."
  | false, ps => Str.join "/" ps
  | true, ps => "/" +:+ Str.join "/" ps
  end.

(** [p / q]. *)
Definition join (p q : Path) : Path :=
  if anchored q then q
  else {| anchored := anchored p; parts := parts p ++ parts q |}.

(** [p.parent]. *)
Definition parent (p : Path) : Path :=
  {| anchored := anchored p; parts := removelast (parts p) |}.

Fixpoint strip_prefix (pre l : list string) : option (list string) :=
  match pre, l with
  | [], _ => Some l
  | a :: pre', b :: l' => if String.eqb a b then strip_prefix pre' l' else None
  | _ :: _, [] => None
  end.

(** [p.relative_to(other)]: [ValueError] unless [other] is a leading
    part of [p]. *)
Definition relative_to (p other : Path) : res Path :=
  if Bool.eqb (anchored p) (anchored other) then
    match strip_prefix (parts other) (parts p) with
    | Some rest => Ok {| anchored := false; parts := rest |}
    | None => Err ValueError
    end
  else Err ValueError.

End PathOps.

(** ** The world: files and the logger *)

(** Regular files by the text of their path, in directory order, with
    their content. *)
Definition FS := list (string * string).

Inductive Level : Type := INFO | WARNING.

(** The records of the logger at [INFO] and above, oldest first.  The
    [debug] calls of the class only format values that are returned
    anyway and are left out. *)
Record World : Type := mkWorld { fs : FS; log : list (Level * string) }.

(** A computation reads and changes the world and returns or raises; the
    world survives an exception. *)
Definition M (A : Type) : Type := World -> res A * World.

Definition ret {A} (a : A) : M A := fun w => (Ok a, w).

Definition bind {A B} (c : M A) (k : A -> M B) : M B :=
  fun w => match c w with
           | (Ok a, w') => k a w'
           | (Err e, w') => (Err e, w')
           end.

Definition raise {A} (e : exn) : M A := fun w => (Err e, w).

(** A pure step that may raise. *)
Definition lift {A} (r : res A) : M A := fun w => (r, w).

(** A step that reads the file system. *)
Definition reading {A} (f : FS -> res A) : M A := fun w => (f (fs w), w).

(** [self._logger.<level>(msg)]. *)
Definition logger (l : Level) (msg : string) : M unit :=
  fun w => (Ok tt, {| fs := fs w; log := log w ++ [(l, msg)] |}).

Notation "x <- c ;; k" := (bind c (fun x => k))
  (at level 61, c at next level, right associativity).
Notation "c ;;; k" := (bind c (fun _ => k))
  (at level 61, right associativity).

Module Files.

(** [open(p, "w")] creates or truncates; [write] fills. *)
Definition put (p : Path) (text : string) (f : FS) : FS :=
  Dict.set (PathOps.str p) text f.

(** [open(p, "r").read()]. *)
Definition read (p : Path) (f : FS) : res string :=
  match Dict.lookup (PathOps.str p) f with
  | Some text => Ok text
  | None => Err FileNotFoundError
  end.

End Files.

(** ** Collaborators *)

(** The libraries the class calls.  Those that look at the disk take the
    file system as an argument. *)
Record Env : Type := mkEnv {
  (** [setuptools.discovery.find_package_path(name, package_dir, root)] *)
  find_package_path : string -> value -> Path -> res string;
  (** [setuptools.find_namespace_packages(where, include, exclude)] *)
  find_namespace_packages : FS -> value -> value -> value -> res (list string);
  (** [root.glob(pattern)], in the order the directory is read *)
  glob : FS -> Path -> string -> list Path;
  (** [p.is_file()] *)
  is_file : FS -> Path -> bool;
  (** [ExtractVersion.parse_changelog(changelog_file)] *)
  parse_changelog : FS -> Path -> res string;
  (** [ExtractVersion.parse_semver_line(release_version_line)] *)
  parse_semver_line : string -> res string;
  (** [getattr(load_module(source), name)] *)
  load_module_attr : FS -> string -> string -> res value;
  (** whether [open(p, "w")] succeeds *)
  can_open_w : FS -> Path -> bool;
  (** [json.dumps(v, indent=...)] *)
  json_dumps : option nat -> value -> res string;
  (** [json.loads(text)] *)
  json_loads : string -> res value;
  (** [DeepDiff(a, b)] *)
  DeepDiff : value -> value -> value
}.

(** ** The class *)

(** An instance after [__init__]: the three paths and the parsed
    [pyproject.toml]. *)
Record Pyproject2uPyPackage : Type := mkInstance {
  _project_config_file : Path;
  _package_file : option Path;
  _package_changelog_file : option Path;
  _setup_data : dict
}.

Definition sentinel : string := "-1.-1.-1".

Section Methods.

Variable env : Env.
Variable self : Pyproject2uPyPackage.

(** [self._root_dir] *)
Definition _root_dir : Path := PathOps.parent (_project_config_file self).

(** [self._setup_data.get("tool", {}).get("setuptools", {}).get(key, default)] *)
Definition tool_setuptools (key : string) (default : value) : res value :=
  tool <-? Py.get "tool" (VDict []) (VDict (_setup_data self)) ;;
  setuptools <-? Py.get "setuptools" (VDict []) tool ;;
  Py.get key default setuptools.

(** The loop [for package in packages: package_paths[package] =
    find_package_path(package, package_dir, self._root_dir)].  A name
    that is no [str] fails inside setuptools at [name.split]. *)
Fixpoint resolve_packages (packages : list value) (package_dir : value)
    (package_paths : list (string * string)) : res (list (string * string)) :=
  match packages with
  | [] => Ok package_paths
  | VStr package :: rest =>
      package_path <-? find_package_path env package package_dir _root_dir ;;
      resolve_packages rest package_dir (Dict.set package package_path package_paths)
  | _ :: _ => Err (AttributeError "split")
  end.

(** The loop [for search_dir in where] of the auto-discovery branch. *)
Fixpoint discover_packages (f : FS) (package_name : option string)
    (find : value) (where_ : list value)
    (package_paths : list (string * string)) : res (list (string * string)) :=
  match where_ with
  | [] => Ok package_paths
  | search_dir :: rest =>
      packages <-? match package_name with
                   | Some name => Ok [VStr name]
                   | None =>
                       include <-? Py.get "include" (VList [VStr "*"]) find ;;
                       exclude <-? Py.get "exclude" (VList []) find ;;
                       names <-? find_namespace_packages env f search_dir include exclude ;;
                       Ok (map VStr names)
                   end ;;
      package_paths' <-? resolve_packages packages (VDict [("", search_dir)])
                           package_paths ;;
      discover_packages f package_name find rest package_paths'
  end.

Definition _find_packages (f : FS) (package_name : option string)
  : res (list (string * string)) :=
  packages_setup <-? tool_setuptools "packages" (VDict []) ;;
  match packages_setup with
  | VList listed =>
      let packages := match package_name with
                      | None => listed
                      | Some name => [VStr name]
                      end in
      package_dir <-? tool_setuptools "package-dir" (VDict [("", VStr ".")]) ;;
      resolve_packages packages package_dir []
  | _ =>
      find <-? Py.get "find" (VDict []) packages_setup ;;
      where_ <-? Py.get "where" (VList [VStr "."]) find ;;
      dirs <-? Py.iter where_ ;;
      discover_packages f package_name find dirs []
  end.

(** [[x.relative_to(self._root_dir) for x in p if x.is_file()]] *)
Fixpoint relative_files (f : FS) (p : list Path) : res (list Path) :=
  match p with
  | [] => Ok []
  | x :: rest =>
      if is_file env f x then
        r <-? PathOps.relative_to x _root_dir ;;
        files <-? relative_files f rest ;;
        Ok (r :: files)
      else relative_files f rest
  end.

(** The loop [for info in package_paths.items()] of [package_files]. *)
Fixpoint collect_files (f : FS) (package_paths : list (string * string))
    (all_files : list Path) : res (list Path) :=
  match package_paths with
  | [] => Ok all_files
  | info :: rest =>
      rel <-? PathOps.relative_to (PathOps.of_str (snd info)) _root_dir ;;
      let search_dir := PathOps.str rel +:+ "/*.py" in
      let p := glob env f _root_dir search_dir in
      files <-? relative_files f p ;;
      collect_files f rest (all_files ++ files)
  end.

Definition package_files (f : FS) : res (list Path) :=
  package_paths <-? _find_packages f None ;;
  collect_files f package_paths [].

Definition data_files : list Path := [].

Definition package_version : M value :=
  version <- lift (tool_setuptools "dynamic" (VDict []) ) ;;
  version <- lift (Py.get "version" (VStr sentinel) version) ;;
  attr <- lift (Py.getitem "attr" version) ;;
  if Py.truthy attr then
    dotted <- lift (Py.split "." attr) ;;
    let version_module := Str.join "." (removelast dotted) in
    let version_attr := last dotted "" in
    package_paths <- reading (fun f => _find_packages f (Some version_module)) ;;
    package_path <- lift (match Dict.lookup version_module package_paths with
                          | Some path => Ok path
                          | None => Err (KeyError version_module)
                          end) ;;
    reading (fun f => load_module_attr env f (package_path +:+ ".py") version_attr)
  else
    logger WARNING "Unable to identify package 'version'" ;;;
    ret (VStr sentinel).

Definition package_changelog_version : M value :=
  match _package_changelog_file self with
  | Some changelog_file =>
      version_line <- reading (fun f => parse_changelog env f changelog_file) ;;
      semver_string <- lift (parse_semver_line env version_line) ;;
      ret (VStr semver_string)
  | None =>
      logger WARNING "No package changelog file specified" ;;;
      ret (VStr sentinel)
  end.

Definition package_deps : M value :=
  project <- lift (Py.get "project" (VDict []) (VDict (_setup_data self))) ;;
  dependencies <- lift (Py.get "dependencies" VNone project) ;;
  if Py.truthy dependencies then ret dependencies
  else
    logger WARNING "No 'dependencies' key found in setup data dict" ;;;
    ret (VList []).

Definition package_url : M value :=
  project <- lift (Py.get "project" (VList []) (VDict (_setup_data self))) ;;
  if Py.truthy project then
    urls <- lift (Py.getitem "urls" project) ;;
    lift (Py.getitem "Source" urls)
  else
    logger WARNING "No 'urls[Source]' key found in setup data dict" ;;;
    raise (SystemExit "Project URL is mandatory").

(** One entry of [urls]: [[str(file), str(Path(url) / file)]] *)
Definition url_element (url : string) (file : Path) : value :=
  VList [VStr (PathOps.str file);
         VStr (PathOps.str (PathOps.join (PathOps.of_str url) file))].

Definition _create_url_elements (package_files : list Path) (url : string)
  : list value :=
  map (url_element url) package_files.

Definition package_data : M value :=
  package_files <- reading package_files ;;
  version <- match _package_changelog_file self with
             | Some _ => package_changelog_version
             | None => package_version
             end ;;
  install_requires <- package_deps ;;
  source <- package_url ;;
  url <- lift (Py.replace "https://github.com/" "github:" source) ;;
  let urls := _create_url_elements package_files url
              ++ _create_url_elements data_files url in
  ret (VDict [("urls", VList urls);
              ("deps", install_requires);
              ("version", version)]).

Definition package_json_data : M value :=
  match _package_file self with
  | Some package_file =>
      text <- reading (Files.read package_file) ;;
      lift (json_loads env text)
  | None => raise (Setup2uPyPackageError "No package.json data specified")
  end.

(** [any(i in ele[0] for i in excludes)] *)
Fixpoint any_in_first (excludes : list string) (ele : value) : res bool :=
  match excludes with
  | [] => Ok false
  | i :: rest =>
      first <-? Py.getitem0 ele ;;
      found <-? Py.contains i first ;;
      if found then Ok true else any_in_first rest ele
  end.

(** [[ele for ele in items if not any(...)]] *)
Fixpoint exclude_items (excludes : list string) (items : list value)
  : res (list value) :=
  match items with
  | [] => Ok []
  | ele :: rest =>
      hit <-? any_in_first excludes ele ;;
      kept <-? exclude_items excludes rest ;;
      Ok (if hit then kept else ele :: kept)
  end.

Definition default_excludes : list string := ["boot.py"; "main.py"].

Definition _exclude_package_files (package_files : value) : res (list value) :=
  items <-? Py.iter package_files ;;
  exclude_items default_excludes items.

(** [if flag: d.pop(key, None)] *)
Definition pop_if (flag : bool) (key : string) (d : dict) : dict :=
  if flag then Dict.pop key d else d.

(** [d["urls"] = self._exclude_package_files(package_files=d.get("urls", []))] *)
Definition exclude_urls (d : dict) : res dict :=
  kept <-? _exclude_package_files
             (match Dict.lookup "urls" d with Some v => v | None => VList [] end) ;;
  Ok (Dict.set "urls" (VList kept) d).

(** [d.get("urls", []).sort()]: the list held by [d] is sorted in place. *)
Definition sort_urls (d : dict) : res dict :=
  match Dict.lookup "urls" d with
  | None => Ok d
  | Some (VList l) => sorted <-? Py.sort l ;; Ok (Dict.set "urls" (VList sorted) d)
  | Some _ => Err (AttributeError "sort")
  end.

(** The body of [validate] once both manifests are copied. *)
Definition compare_manifests (ignore_version ignore_deps ignore_boot_main : bool)
    (package_json_data package_data : dict) : res bool :=
  let package_json_data := pop_if ignore_version "version" package_json_data in
  let package_data := pop_if ignore_version "version" package_data in
  let package_json_data := pop_if ignore_deps "deps" package_json_data in
  let package_data := pop_if ignore_deps "deps" package_data in
  both <-? (if ignore_boot_main then
              target <-? exclude_urls package_json_data ;;
              derived <-? exclude_urls package_data ;;
              Ok (target, derived)
            else Ok (package_json_data, package_data)) ;;
  package_json_data <-? sort_urls (fst both) ;;
  package_data <-? sort_urls (snd both) ;;
  Ok (Py.eq (VDict package_json_data) (VDict package_data)).

Definition validate (ignore_version ignore_deps ignore_boot_main : bool) : M bool :=
  loaded <- package_json_data ;;
  package_json_data <- lift (Py.to_dict loaded) ;;
  derived <- package_data ;;
  package_data <- lift (Py.to_dict derived) ;;
  lift (compare_manifests ignore_version ignore_deps ignore_boot_main
          package_json_data package_data).

Definition validation_diff : M value :=
  derived <- package_data ;;
  loaded <- package_json_data ;;
  ret (DeepDiff env derived loaded).

(** [open(p, "w")]: the file exists and is empty from here on. *)
Definition open_w (p : Path) : M unit :=
  fun w => if can_open_w env (fs w) p
           then (Ok tt, {| fs := Files.put p "" (fs w); log := log w |})
           else (Err OSError, w).

(** [file.write(text)], flushed when the [with] block ends. *)
Definition write (p : Path) (text : string) : M unit :=
  fun w => (Ok tt, {| fs := Files.put p text (fs w); log := log w |}).

Definition create (output_path : option Path) (pretty : bool) : M unit :=
  output_path <- match output_path with
                 | Some p => ret p
                 | None =>
                     match _package_file self with
                     | Some package_file => ret package_file
                     | None =>
                         logger INFO "No package.json data specified, using setup.py directory" ;;;
                         ret (PathOps.join (PathOps.parent (_project_config_file self))
                                (PathOps.of_str "package.json"))
                     end
                 end ;;
  open_w output_path ;;;
  derived <- package_data ;;
  text <- lift (json_dumps env (if pretty then Some 4%nat else None) derived) ;;
  write output_path text.

End Methods.

(** ** Sample collaborators

    Executable stand-ins for the libraries, used to run the class on
    concrete projects.  The working directory is the project root. *)

Module Sample.

(** [os.path.join(a, *p)] *)
Definition os_path_join2 (path b : string) : string :=
  if String.prefix "/" b then b
  else if String.eqb path "" || Str.endswith "/" path then path +:+ b
  else path +:+ "/" +:+ b.

Definition os_path_join (a : string) (p : list string) : string :=
  fold_left os_path_join2 p a.

(** The most specific entry of [package_dir] for a dotted name: the
    longest leading part of the name that is a key. *)
Fixpoint most_specific (i : nat) (name_parts : list string) (package_dir : dict)
  : option (value * list string) :=
  match i with
  | O => None
  | S j =>
      match Dict.lookup (Str.join "." (firstn i name_parts)) package_dir with
      | Some parent => Some (parent, skipn i name_parts)
      | None => most_specific j name_parts package_dir
      end
  end.

(** [setuptools.discovery.find_package_path] *)
Definition find_package_path (name : string) (package_dir : value) (root : Path)
  : res string :=
  match package_dir with
  | VDict pd =>
      let name_parts := Str.split "." name in
      match most_specific (List.length name_parts) name_parts pd with
      | Some (VStr parent, rest) =>
          Ok (os_path_join (PathOps.str root) (parent :: rest))
      | Some (_, _) => Err TypeError
      | None =>
          match Dict.lookup "" pd with
          | Some (VStr parent) =>
              Ok (os_path_join (PathOps.str root) (Str.split "/" parent ++ name_parts))
          | Some v =>
              if Py.truthy v then Err (AttributeError "split")
              else Ok (os_path_join (PathOps.str root) ("" :: name_parts))
          | None => Ok (os_path_join (PathOps.str root) ("" :: name_parts))
          end
      end
  | _ => Err TypeError
  end.

(** [fnmatch] for patterns made of literal characters and [*]. *)
Fixpoint fnmatch (pat : string) : string -> bool :=
  match pat with
  | EmptyString => fun s => String.eqb s ""
  | String c pat' =>
      if Ascii.eqb c "*" then
        fix star (s : string) : bool :=
          fnmatch pat' s ||
          match s with
          | EmptyString => false
          | String _ s' => star s'
          end
      else
        fun s => match s with
                 | EmptyString => false
                 | String a s' => Ascii.eqb a c && fnmatch pat' s'
                 end
  end.

(** [root.glob(pattern)] for a pattern whose directories are literal. *)
Definition glob (f : FS) (root : Path) (pattern : string) : list Path :=
  let pat := parts (PathOps.of_str pattern) in
  let dir := parts root ++ removelast pat in
  flat_map
    (fun entry =>
       let p := PathOps.of_str (fst entry) in
       if Bool.eqb (anchored p) (anchored root) then
         match PathOps.strip_prefix dir (parts p) with
         | Some [name] => if fnmatch (last pat "") name then [p] else []
         | _ => []
         end
       else [])
    f.

Definition is_file (f : FS) (p : Path) : bool :=
  match Dict.lookup (PathOps.str p) f with
  | Some _ => true
  | None => false
  end.

(** The dotted names of the directories that lie between [where_] and a
    file, outermost first. *)
Fixpoint dotted_prefixes (done : list string) (dirs : list string) : list string :=
  match dirs with
  | [] => []
  | d :: rest => Str.join "." (done ++ [d]) :: dotted_prefixes (done ++ [d]) rest
  end.

Fixpoint dedupe (seen : list string) (l : list string) : list string :=
  match l with
  | [] => []
  | x :: rest =>
      if existsb (String.eqb x) seen then dedupe seen rest
      else x :: dedupe (x :: seen) rest
  end.

Definition patterns (v : value) : list string :=
  match v with
  | VList l => flat_map (fun x => match x with VStr s => [s] | _ => [] end) l
  | _ => []
  end.

(** [setuptools.find_namespace_packages]: every directory under
    [where_] that leads to a file, filtered by the patterns. *)
Definition find_namespace_packages (f : FS) (where_ include exclude : value)
  : res (list string) :=
  match where_ with
  | VStr dir =>
      let base := parts (PathOps.of_str dir) in
      let found :=
        flat_map
          (fun entry =>
             match PathOps.strip_prefix base (parts (PathOps.of_str (fst entry))) with
             | Some rest => dotted_prefixes [] (removelast rest)
             | None => []
             end) f in
      Ok (filter (fun name =>
                    existsb (fun pat => fnmatch pat name) (patterns include)
                    && negb (existsb (fun pat => fnmatch pat name) (patterns exclude)))
                 (dedupe [] found))
  | _ => Err TypeError
  end.

(** The text between the first [open_] and the next [close]. *)
Fixpoint until_char (close : ascii) (s : string) : option string :=
  match s with
  | EmptyString => None
  | String a s' =>
      if Ascii.eqb a close then Some EmptyString
      else option_map (String a) (until_char close s')
  end.

Fixpoint between (open_ close : ascii) (s : string) : option string :=
  match s with
  | EmptyString => None
  | String a s' =>
      if Ascii.eqb a open_ then until_char close s' else between open_ close s'
  end.

Definition newline : ascii := Ascii.ascii_of_nat 10.
Definition dquote : ascii := Ascii.ascii_of_nat 34.
Definition backslash : ascii := Ascii.ascii_of_nat 92.

(** The first line of the changelog that opens a release: [## [x.y.z] - date]. *)
Definition parse_changelog (f : FS) (changelog_file : Path) : res string :=
  text <-? Files.read changelog_file f ;;
  match filter (String.prefix "## [") (Str.split newline text) with
  | line :: _ => Ok line
  | [] => Err ValueError
  end.

Definition parse_semver_line (release_version_line : string) : res string :=
  match between "[" "]" release_version_line with
  | Some semver => Ok semver
  | None => Err ValueError
  end.

(** A module source is read for a line [name = "text"]. *)
Definition load_module_attr (f : FS) (source name : string) : res value :=
  text <-? Files.read (PathOps.of_str source) f ;;
  match flat_map (fun line =>
                    if String.prefix (name +:+ " = ") line
                    then match between dquote dquote line with
                         | Some v => [v]
                         | None => []
                         end
                    else [])
                 (Str.split newline text) with
  | v :: _ => Ok (VStr v)
  | [] => Err (AttributeError name)
  end.

(** *** json *)

Definition hex_digit (n : nat) : ascii :=
  nth n (list_ascii_of_string "0123456789abcdef") "0"%char.

(** One character inside a JSON string, as [json.dumps] writes it; text
    outside ASCII is written as it is. *)
Definition escape_char (a : ascii) : string :=
  let n := nat_of_ascii a in
  if Nat.eqb n 34 then String backslash (String dquote "")
  else if Nat.eqb n 92 then String backslash (String backslash "")
  else if Nat.eqb n 10 then String backslash "n"
  else if Nat.eqb n 13 then String backslash "r"
  else if Nat.eqb n 9 then String backslash "t"
  else if Nat.eqb n 8 then String backslash "b"
  else if Nat.eqb n 12 then String backslash "f"
  else if Nat.ltb n 32 || Nat.eqb n 127 then
    String backslash ("u00" +:+ String (hex_digit (n / 16)) (String (hex_digit (n mod 16)) ""))
  else String a "".

Fixpoint escape (s : string) : string :=
  match s with
  | EmptyString => EmptyString
  | String a s' => escape_char a +:+ escape s'
  end.

Definition quoted (s : string) : string :=
  String dquote (escape s +:+ String dquote "").

Fixpoint spaces (n : nat) : string :=
  match n with
  | O => EmptyString
  | S k => String " " (spaces k)
  end.

(** What opens, separates and closes the items of a non-empty container
    at nesting depth [level]. *)
Definition layout (indent : option nat) (level : nat) : string * string * string :=
  match indent with
  | None => ("", ", ", "")
  | Some n =>
      let inner := String newline (spaces (n * S level)) in
      (inner, "," +:+ inner, String newline (spaces (n * level)))
  end.

Definition bracket (indent : option nat) (level : nat) (open_ close : string)
    (items : list string) : string :=
  match items with
  | [] => open_ +:+ close
  | _ =>
      let '(first, sep, final) := layout indent level in
      open_ +:+ first +:+ Str.join sep items +:+ final +:+ close
  end.

Fixpoint dumps_at (indent : option nat) (level : nat) (v : value) : string :=
  match v with
  | VNone => "null"
  | VBool true => "true"
  | VBool false => "false"
  | VInt z => NilZero.string_of_int (Z.to_int z)
  | VStr s => quoted s
  | VList l =>
      bracket indent level "[" "]"
        ((fix items (l : list value) : list string :=
            match l with
            | [] => []
            | x :: l' => dumps_at indent (S level) x :: items l'
            end) l)
  | VDict d =>
      bracket indent level "{" "}"
        ((fix members (d : list (string * value)) : list string :=
            match d with
            | [] => []
            | (k, x) :: d' =>
                (quoted k +:+ ": " +:+ dumps_at indent (S level) x) :: members d'
            end) d)
  end.

Definition json_dumps (indent : option nat) (v : value) : res string :=
  Ok (dumps_at indent 0 v).

Definition is_ws (a : ascii) : bool :=
  let n := nat_of_ascii a in
  Nat.eqb n 32 || Nat.eqb n 10 || Nat.eqb n 13 || Nat.eqb n 9.

Fixpoint skip_ws (s : string) : string :=
  match s with
  | EmptyString => EmptyString
  | String a s' => if is_ws a then skip_ws s' else s
  end.

Definition hex_value (a : ascii) : option nat :=
  let n := nat_of_ascii a in
  if Nat.leb 48 n && Nat.leb n 57 then Some (n - 48)
  else if Nat.leb 97 n && Nat.leb n 102 then Some (n - 87)
  else if Nat.leb 65 n && Nat.leb n 70 then Some (n - 55)
  else None.

Definition unescape (a : ascii) : option ascii :=
  let n := nat_of_ascii a in
  if Nat.eqb n 34 || Nat.eqb n 92 || Nat.eqb n 47 then Some a
  else if Nat.eqb n 110 then Some (ascii_of_nat 10)
  else if Nat.eqb n 114 then Some (ascii_of_nat 13)
  else if Nat.eqb n 116 then Some (ascii_of_nat 9)
  else if Nat.eqb n 98 then Some (ascii_of_nat 8)
  else if Nat.eqb n 102 then Some (ascii_of_nat 12)
  else None.

Definition push (a : ascii) (r : option (string * string)) : option (string * string) :=
  match r with
  | Some (s, rest) => Some (String a s, rest)
  | None => None
  end.

(** A string literal after its opening quote; [\uXXXX] is read below 256. *)
Fixpoint parse_string (s : string) : option (string * string) :=
  match s with
  | EmptyString => None
  | String a s' =>
      if Ascii.eqb a dquote then Some (EmptyString, s')
      else if Ascii.eqb a backslash then
        match s' with
        | EmptyString => None
        | String b s'' =>
            if Ascii.eqb b "u" then
              match s'' with
              | String h1 (String h2 (String h3 (String h4 rest))) =>
                  match hex_value h1, hex_value h2, hex_value h3, hex_value h4 with
                  | Some 0, Some 0, Some hi, Some lo =>
                      push (ascii_of_nat (16 * hi + lo)) (parse_string rest)
                  | _, _, _, _ => None
                  end
              | _ => None
              end
            else match unescape b with
                 | Some c => push c (parse_string s'')
                 | None => None
                 end
        end
      else push a (parse_string s')
  end.

Definition is_digit (a : ascii) : bool :=
  let n := nat_of_ascii a in Nat.leb 48 n && Nat.leb n 57.

Fixpoint parse_digits (acc : Z) (s : string) : Z * string :=
  match s with
  | EmptyString => (acc, s)
  | String a s' =>
      if is_digit a
      then parse_digits (10 * acc + Z.of_nat (nat_of_ascii a - 48)) s'
      else (acc, s)
  end.

Definition drop (n : nat) (s : string) : string :=
  String.substring n (String.length s - n) s.

(** A JSON value at the start of [s], and the text after it.  Numbers
    are integers. *)
Fixpoint parse_value (fuel : nat) (s : string) : option (value * string) :=
  match fuel with
  | O => None
  | S fuel' =>
      match s with
      | EmptyString => None
      | String a s' =>
          if Ascii.eqb a dquote then
            match parse_string s' with
            | Some (text, rest) => Some (VStr text, rest)
            | None => None
            end
          else if Ascii.eqb a "[" then
            match skip_ws s' with
            | String c rest =>
                if Ascii.eqb c "]" then Some (VList [], rest)
                else match parse_elems fuel' (String c rest) [] with
                     | Some (l, rest') => Some (VList l, rest')
                     | None => None
                     end
            | EmptyString => None
            end
          else if Ascii.eqb a "{" then
            match skip_ws s' with
            | String c rest =>
                if Ascii.eqb c "}" then Some (VDict [], rest)
                else match parse_members fuel' (String c rest) [] with
                     | Some (d, rest') => Some (VDict d, rest')
                     | None => None
                     end
            | EmptyString => None
            end
          else if String.prefix "null" s then Some (VNone, drop 4 s)
          else if String.prefix "true" s then Some (VBool true, drop 4 s)
          else if String.prefix "false" s then Some (VBool false, drop 5 s)
          else if Ascii.eqb a "-" then
            match s' with
            | String d _ =>
                if is_digit d
                then let '(n, rest) := parse_digits 0 s' in Some (VInt (- n), rest)
                else None
            | EmptyString => None
            end
          else if is_digit a then
            let '(n, rest) := parse_digits 0 s in Some (VInt n, rest)
          else None
      end
  end
with parse_elems (fuel : nat) (s : string) (acc : list value)
  : option (list value * string) :=
  match fuel with
  | O => None
  | S fuel' =>
      match parse_value fuel' s with
      | Some (v, rest) =>
          match skip_ws rest with
          | String c rest' =>
              if Ascii.eqb c "," then parse_elems fuel' (skip_ws rest') (acc ++ [v])
              else if Ascii.eqb c "]" then Some (acc ++ [v], rest')
              else None
          | EmptyString => None
          end
      | None => None
      end
  end
with parse_members (fuel : nat) (s : string) (acc : dict)
  : option (dict * string) :=
  match fuel with
  | O => None
  | S fuel' =>
      match s with
      | String q s' =>
          if Ascii.eqb q dquote then
            match parse_string s' with
            | Some (key, rest) =>
                match skip_ws rest with
                | String colon rest' =>
                    if Ascii.eqb colon ":" then
                      match parse_value fuel' (skip_ws rest') with
                      | Some (v, rest'') =>
                          match skip_ws rest'' with
                          | String c rest3 =>
                              if Ascii.eqb c ","
                              then parse_members fuel' (skip_ws rest3) (Dict.set key v acc)
                              else if Ascii.eqb c "}" then Some (Dict.set key v acc, rest3)
                              else None
                          | EmptyString => None
                          end
                      | None => None
                      end
                    else None
                | EmptyString => None
                end
            | None => None
            end
          else None
      | EmptyString => None
      end
  end.

Definition json_loads (text : string) : res value :=
  match parse_value (2 * String.length text + 2) (skip_ws text) with
  | Some (v, rest) =>
      match skip_ws rest with
      | EmptyString => Ok v
      | _ => Err JSONDecodeError
      end
  | None => Err JSONDecodeError
  end.

(** A structural difference report: the keys of [b] whose value differs
    from the one in [a]. *)
Definition DeepDiff (a b : value) : value :=
  match a, b with
  | VDict da, VDict db =>
      VDict (filter (fun kv => match Dict.lookup (fst kv) da with
                               | Some v => negb (Py.eq v (snd kv))
                               | None => true
                               end) db)
  | _, _ => if Py.eq a b then VDict [] else VDict [("values_changed", b)]
  end.

Definition env : Env :=
  mkEnv find_package_path find_namespace_packages glob is_file
        parse_changelog parse_semver_line load_module_attr
        (fun _ _ => true) json_dumps json_loads DeepDiff.

End Sample.

(** A [urls] entry of a manifest: [[relative_path, absolute_url]]. *)
Definition url_entry (e : string * string) : value :=
  VList [VStr (fst e); VStr (snd e)].

(** A manifest with its three keys in the order [package_data] builds. *)
Definition manifest (urls : list (string * string)) (deps version : value) : dict :=
  [("urls", VList (map url_entry urls)); ("deps", deps); ("version", version)].

(** ** Sample projects *)

Module Widget.

(** The project of the specification's example: dependencies
    [["urequests"]], the source URL of acme/widget, one explicit package
    [widget] holding [__init__.py] and [core.py], no version source. *)
Definition setup_data : dict :=
  [("project",
    VDict [("name", VStr "widget");
           ("dependencies", VList [VStr "urequests"]);
           ("urls", VDict [("Source", VStr "https://github.com/acme/widget")])]);
   ("tool",
    VDict [("setuptools", VDict [("packages", VList [VStr "widget"])])])].

Definition changelog : string :=
  "# Changelog" +:+ String Sample.newline
    ("## [1.2.3] - 2023-05-01" +:+ String Sample.newline
       ("## [1.2.2] - 2023-04-01" +:+ String Sample.newline "")).

Definition files : FS :=
  [("pyproject.toml", "");
   ("CHANGELOG.md", changelog);
   ("README.md", "");
   ("widget/__init__.py", "");
   ("widget/core.py", "");
   ("widget/notes.txt", "");
   ("tests/test_core.py", "")].

Definition world : World := {| fs := files; log := [] |}.

Definition config_file : Path := PathOps.of_str "pyproject.toml".
Definition changelog_file : Path := PathOps.of_str "CHANGELOG.md".
Definition manifest_file : Path := PathOps.of_str "package.json".

(** No target manifest, no changelog. *)
Definition plain : Pyproject2uPyPackage :=
  mkInstance config_file None None setup_data.

(** The same project with its changelog supplied. *)
Definition with_changelog : Pyproject2uPyPackage :=
  mkInstance config_file None (Some changelog_file) setup_data.

(** The same with a target manifest path as well. *)
Definition with_manifest : Pyproject2uPyPackage :=
  mkInstance config_file (Some manifest_file) (Some changelog_file) setup_data.

(** The manifest the specification expects for the example. *)
Definition expected_urls : list value :=
  [VList [VStr "widget/__init__.py"; VStr "github:acme/widget/widget/__init__.py"];
   VList [VStr "widget/core.py"; VStr "github:acme/widget/widget/core.py"]].

Definition expected (version : string) : value :=
  VDict [("urls", VList expected_urls);
         ("deps", VList [VStr "urequests"]);
         ("version", VStr version)].

(** A published manifest of the same project: the entries in another
    order and an older version. *)
Definition published : value :=
  VDict [("version", VStr "1.2.2");
         ("urls",
          VList [VList [VStr "widget/core.py";
                        VStr "github:acme/widget/widget/core.py"];
                 VList [VStr "widget/__init__.py";
                        VStr "github:acme/widget/widget/__init__.py"]]);
         ("deps", VList [VStr "urequests"])].

Definition published_world : World :=
  {| fs := files ++ [("package.json", Sample.dumps_at None 0 published)];
     log := [] |}.

(** The project with a dynamic version declared: the attribute
    [__version__] of the module [widget.version]. *)
Definition setup_data_dynamic : dict :=
  [("project",
    VDict [("name", VStr "widget");
           ("dependencies", VList [VStr "urequests"]);
           ("urls", VDict [("Source", VStr "https://github.com/acme/widget")])]);
   ("tool",
    VDict [("setuptools",
            VDict [("packages", VList [VStr "widget"]);
                   ("dynamic",
                    VDict [("version",
                            VDict [("attr", VStr "widget.version.__version__")])])])])].

Definition version_module : string :=
  "__version__ = " +:+ String Sample.dquote ("2.0.1" +:+ String Sample.dquote "").

Definition versioned_world : World :=
  {| fs := files ++ [("widget/version.py", version_module)]; log := [] |}.

Definition dynamic : Pyproject2uPyPackage :=
  mkInstance config_file None None setup_data_dynamic.

Definition dynamic_with_changelog : Pyproject2uPyPackage :=
  mkInstance config_file None (Some changelog_file) setup_data_dynamic.

(** A [project] table that names the project and nothing else. *)
Definition setup_data_without_urls : dict :=
  [("project",
    VDict [("name", VStr "widget");
           ("dependencies", VList [VStr "urequests"])]);
   ("tool",
    VDict [("setuptools", VDict [("packages", VList [VStr "widget"])])])].

Definition without_urls : Pyproject2uPyPackage :=
  mkInstance config_file None (Some changelog_file) setup_data_without_urls.

(** No [project] table at all. *)
Definition setup_data_without_project : dict :=
  [("tool",
    VDict [("setuptools", VDict [("packages", VList [VStr "widget"])])])].

Definition without_project : Pyproject2uPyPackage :=
  mkInstance config_file None (Some changelog_file) setup_data_without_project.

End Widget.

(** ** Vocabulary of the statements *)

(** What [package_json_data] raises without a target manifest file. *)
Definition no_manifest : exn :=
  Setup2uPyPackageError "No package.json data specified".

(** The entries [ignore_boot_main] is meant to drop. *)
Definition is_boot_or_main (e : string * string) : bool :=
  Str.contains "boot.py" (fst e) || Str.contains "main.py" (fst e).

Definition keep_entry (e : string * string) : bool := negb (is_boot_or_main e).

(** Python's [<] on two entries: by path, then by URL. *)
Definition entry_ltb (a b : string * string) : bool :=
  if String.eqb (fst a) (fst b) then String.ltb (snd a) (snd b)
  else String.ltb (fst a) (fst b).

Definition entry_le (a b : string * string) : Prop := entry_ltb b a = false.

Fixpoint entry_insert (x : string * string) (l : list (string * string))
  : list (string * string) :=
  match l with
  | [] => [x]
  | y :: l' => if entry_ltb y x then y :: entry_insert x l' else x :: l
  end.

(** [sorted(urls)] on typed entries. *)
Fixpoint entry_sort (l : list (string * string)) : list (string * string) :=
  match l with
  | [] => []
  | x :: l' => entry_insert x (entry_sort l')
  end.

(** Values every one of whose dicts has distinct keys: all that
    [tomllib] and [json] can return. *)
Fixpoint wf_value (v : value) : Prop :=
  match v with
  | VList l =>
      (fix all (l : list value) : Prop :=
         match l with
         | [] => True
         | x :: l' => wf_value x /\ all l'
         end) l
  | VDict d =>
      NoDup (map fst d) /\
      (fix all (d : list (string * value)) : Prop :=
         match d with
         | [] => True
         | kv :: d' => wf_value (snd kv) /\ all d'
         end) d
  | _ => True
  end.


(** Two configurations that differ at most in what they declare under
    [tool.setuptools.dynamic]. *)
Definition agree_outside_dynamic (self other : Pyproject2uPyPackage) : Prop :=
  _project_config_file self = _project_config_file other /\
  _package_file self = _package_file other /\
  _package_changelog_file self = _package_changelog_file other /\
  Dict.lookup "project" (_setup_data self) = Dict.lookup "project" (_setup_data other) /\
  forall key default, key <> "dynamic" ->
    tool_setuptools self key default = tool_setuptools other key default.

(** [json] reads [d] back from the text it writes for it. *)
Definition json_faithful (env : Env) (indent : option nat) (d : value) : Prop :=
  forall text, json_dumps env indent d = Ok text -> json_loads env text = Ok d.

(** The derivation does not depend on the text of the file at [p]: with
    the other files of [f] as they are, it returns the same whatever
    that file holds. *)
Definition derivation_ignores (env : Env) (self : Pyproject2uPyPackage)
    (p : Path) (f : FS) : Prop :=
  forall text,
    fst (package_data env self {| fs := Files.put p text f; log := [] |})
    = fst (package_data env self {| fs := Files.put p "" f; log := [] |}).

(** A computation that leaves the files alone and whose outcome does not
    depend on what was logged before. *)
Definition steady {A} (c : M A) : Prop :=
  forall f l l',
    fst (c {| fs := f; log := l |}) = fst (c {| fs := f; log := l' |}) /\
    fs (snd (c {| fs := f; log := l |})) = f.

(** ** Vocabulary of the further properties *)


(** The file [create] writes to: the path it is given, else the target
    manifest of the instance, else [package.json] beside the project
    configuration. *)
Definition create_target (self : Pyproject2uPyPackage) (output_path : option Path)
  : Path :=
  match output_path with
  | Some p => p
  | None =>
      match _package_file self with
      | Some package_file => package_file
      | None => PathOps.join (PathOps.parent (_project_config_file self))
                  (PathOps.of_str "package.json")
      end
  end.

(** [kept] holds some of the items of [items], in their order. *)
Inductive Subseq {A : Type} : list A -> list A -> Prop :=
| Subseq_nil : Subseq [] []
| Subseq_keep x kept items : Subseq kept items -> Subseq (x :: kept) (x :: items)
| Subseq_drop x kept items : Subseq kept items -> Subseq kept (x :: items).

(** The entries that take part in the comparison. *)
Definition compared (ignore_boot_main : bool) (urls : list (string * string))
  : list (string * string) :=
  if ignore_boot_main then filter keep_entry urls else urls.

(** What [package_deps] makes of the declared dependencies. *)
Definition declared_dependencies (project : dict) : value :=
  match Dict.lookup "dependencies" project with
  | Some v => v
  | None => VNone
  end.

Definition no_dependencies : Level * string :=
  (WARNING, "No 'dependencies' key found in setup data dict").

Definition no_version : Level * string :=
  (WARNING, "Unable to identify package 'version'").

(** *** More sample projects *)

Module Searched.

(** A project found by auto-discovery under two search roots, with a
    dynamic version; the package lives under the first root. *)
Definition setup_data : dict :=
  [("project",
    VDict [("name", VStr "widget");
           ("urls", VDict [("Source", VStr "https://github.com/acme/widget")])]);
   ("tool",
    VDict [("setuptools",
            VDict [("packages",
                    VDict [("find", VDict [("where", VList [VStr "src"; VStr "lib"])])]);
                   ("dynamic",
                    VDict [("version",
                            VDict [("attr", VStr "widget.version.__version__")])])])])].

Definition files : FS :=
  [("pyproject.toml", "");
   ("src/widget/__init__.py", "");
   ("src/widget/version.py", Widget.version_module);
   ("lib/extra/__init__.py", "")].

Definition world : World := {| fs := files; log := [] |}.

Definition instance : Pyproject2uPyPackage :=
  mkInstance Widget.config_file None None setup_data.

End Searched.

Module Listed.

(** The widget project with its package listed twice. *)
Definition setup_data : dict :=
  [("project",
    VDict [("name", VStr "widget");
           ("urls", VDict [("Source", VStr "https://github.com/acme/widget")])]);
   ("tool",
    VDict [("setuptools",
            VDict [("packages", VList [VStr "widget"; VStr "widget"])])])].

Definition instance : Pyproject2uPyPackage :=
  mkInstance Widget.config_file None (Some Widget.changelog_file) setup_data.



(** The files of the widget project as another directory order lists
    them. *)
Definition files_reordered : FS :=
  [("widget/core.py", "");
   ("pyproject.toml", "");
   ("widget/__init__.py", "");
   ("CHANGELOG.md", Widget.changelog);
   ("package.json", Sample.dumps_at None 0 Widget.published)].

(** Entries of a manifest for a board: its boot and main scripts beside
    a library file. *)
Definition board_urls : list value :=
  [VList [VStr "boot.py"; VStr "github:acme/widget/boot.py"];
   VList [VStr "lib/core.py"; VStr "github:acme/widget/lib/core.py"];
   VList [VStr "main.py"; VStr "github:acme/widget/main.py"]].

End Listed.

(** * Properties *)

(** ** The primitives on examples *)

Example split_dotted :
  Str.split "." "widget.version.__version__" = ["widget"; "version"; "__version__"].
Proof. reflexivity. Qed.

Example split_no_separator : Str.split "." "version" = ["version"].
Proof. reflexivity. Qed.

Example replace_github :
  Str.replace "https://github.com/" "github:" "https://github.com/acme/widget"
  = "github:acme/widget".
Proof. reflexivity. Qed.

Example contains_is_substring :
  Str.contains "boot.py" "pkg/boot.py" = true /\
  Str.contains "main.py" "lib/domain.py" = true /\
  Str.contains "main.py" "pkg/core.py" = false.
Proof. repeat split. Qed.

Example path_joins_url :
  PathOps.str (PathOps.join (PathOps.of_str "github:acme/widget")
                 (PathOps.of_str "widget/core.py"))
  = "github:acme/widget/widget/core.py".
Proof. reflexivity. Qed.

(** A URL that keeps its scheme loses one slash when read as a path. *)
Example path_collapses_slashes :
  PathOps.str (PathOps.of_str "https://gitlab.com/acme/widget")
  = "https:/gitlab.com/acme/widget".
Proof. reflexivity. Qed.

Example sample_package_path :
  Sample.find_package_path "widget" (VDict [("", VStr ".")]) (PathOps.of_str ".")
  = Ok "././widget" /\
  Sample.find_package_path "my.pkg" (VDict [("my", VStr "root/is/nested")])
    (PathOps.of_str ".")
  = Ok "./root/is/nested/pkg".
Proof. split; reflexivity. Qed.

Example sample_json_round_trip :
  Sample.json_loads (Sample.dumps_at (Some 4%nat) 0 (Widget.expected "1.2.3"))
  = Ok (Widget.expected "1.2.3") /\
  Sample.json_loads (Sample.dumps_at None 0 (Widget.expected "1.2.3"))
  = Ok (Widget.expected "1.2.3").
Proof. split; reflexivity. Qed.

Example sort_orders_entries :
  Py.sort Widget.expected_urls = Ok Widget.expected_urls /\
  Py.sort (rev Widget.expected_urls) = Ok Widget.expected_urls /\
  Py.sort [VInt 1; VStr "a"] = Err TypeError.
Proof. repeat split. Qed.

(** ** Running computations *)

Lemma bind_ok {A B} (c : M A) (k : A -> M B) w a w' :
  c w = (Ok a, w') -> bind c k w = k a w'.
Proof. intros H. unfold bind. now rewrite H. Qed.

Lemma bind_err {A B} (c : M A) (k : A -> M B) w e w' :
  c w = (Err e, w') -> bind c k w = (Err e, w').
Proof. intros H. unfold bind. now rewrite H. Qed.

Lemma bind_inv {A B} (c : M A) (k : A -> M B) w b w2 :
  bind c k w = (Ok b, w2) ->
  exists a w1, c w = (Ok a, w1) /\ k a w1 = (Ok b, w2).
Proof.
  unfold bind. destruct (c w) as [[a|e] w1]; intros H.
  - now exists a, w1.
  - discriminate.
Qed.

Lemma rbind_inv {A B} (r : res A) (k : A -> res B) b :
  rbind r k = Ok b -> exists a, r = Ok a /\ k a = Ok b.
Proof. destruct r as [a|e]; cbn; intros H; [now exists a | discriminate]. Qed.

(** ** The version when no source is configured *)

(** Without a [version] entry under [tool.setuptools.dynamic] the default
    of the [get] chain is the sentinel string, and subscripting it with
    ["attr"] raises before the branch that would log and return it. *)
Lemma package_version_without_entry env self dyn w :
  tool_setuptools self "dynamic" (VDict []) = Ok (VDict dyn) ->
  Dict.lookup "version" dyn = None ->
  package_version env self w = (Err TypeError, w).
Proof.
  intros Hdyn Hversion. unfold package_version, bind, lift.
  rewrite Hdyn. cbn. rewrite Hversion. reflexivity.
Qed.

(** The branch that logs and returns the sentinel is reached by a
    declared but empty attribute. *)
Lemma package_version_empty_attr env self dyn w :
  tool_setuptools self "dynamic" (VDict []) = Ok (VDict dyn) ->
  Dict.lookup "version" dyn = Some (VDict [("attr", VStr "")]) ->
  package_version env self w
  = (Ok (VStr sentinel),
     {| fs := fs w;
        log := log w ++ [(WARNING, "Unable to identify package 'version'")] |}).
Proof.
  intros Hdyn Hversion. unfold package_version, bind, lift.
  rewrite Hdyn. cbn. rewrite Hversion. reflexivity.
Qed.

(** C1 (defect of the code).  On the example configuration, which has no
    changelog and declares nothing under [tool.setuptools.dynamic],
    reading [package_version] raises [TypeError]; no warning is logged
    and the sentinel is not returned.  This holds whatever the
    collaborators and the state of the disk. *)
Theorem package_version_unconfigured_raises :
  forall env config_file package_file w,
    package_version env
      (mkInstance config_file package_file None Widget.setup_data) w
    = (Err TypeError, w).
Proof. intros. reflexivity. Qed.

(** The sibling property does fail soft when it has no changelog. *)
Lemma package_changelog_version_fails_soft env self w :
  _package_changelog_file self = None ->
  package_changelog_version env self w
  = (Ok (VStr sentinel),
     {| fs := fs w;
        log := log w ++ [(WARNING, "No package changelog file specified")] |}).
Proof. intros H. unfold package_changelog_version. now rewrite H. Qed.

(** ** The example of the specification *)

(** The entries the example expects are the ones the class builds from
    the two files and the rewritten URL. *)
Lemma example_url_elements :
  _create_url_elements
    [PathOps.of_str "widget/__init__.py"; PathOps.of_str "widget/core.py"]
    (Str.replace "https://github.com/" "github:" "https://github.com/acme/widget")
  = Widget.expected_urls.
Proof. reflexivity. Qed.

Lemma example_package_files :
  package_files Sample.env Widget.plain Widget.files
  = Ok [PathOps.of_str "widget/__init__.py"; PathOps.of_str "widget/core.py"].
Proof. reflexivity. Qed.

(** With the changelog supplied the manifest is the expected one, the
    version being the changelog's. *)
Lemma example_with_changelog :
  package_data Sample.env Widget.with_changelog Widget.world
  = (Ok (Widget.expected "1.2.3"), Widget.world).
Proof. reflexivity. Qed.

(** C3 (defect of the code).  On the example configuration with no
    version source, [package_data] raises [TypeError] where the
    specification expects the manifest with version ["-1.-1.-1"]. *)
Theorem example_package_data_raises :
  package_data Sample.env Widget.plain Widget.world
  = (Err TypeError, Widget.world).
Proof. reflexivity. Qed.

(** ** The source URL *)

(** Without a [project] table the run ends with [SystemExit]. *)
Lemma package_url_without_project self w :
  Dict.lookup "project" (_setup_data self) = None ->
  package_url self w
  = (Err (SystemExit "Project URL is mandatory"),
     {| fs := fs w;
        log := log w ++ [(WARNING, "No 'urls[Source]' key found in setup data dict")] |}).
Proof. intros H. unfold package_url, bind, lift. cbn. now rewrite H. Qed.

(** A manifest is only ever returned for a configuration that holds
    [project.urls.Source]. *)
Lemma package_data_needs_source env self w d w' :
  package_data env self w = (Ok d, w') ->
  exists project urls source,
    Dict.lookup "project" (_setup_data self) = Some (VDict project) /\
    Dict.lookup "urls" project = Some (VDict urls) /\
    Dict.lookup "Source" urls = Some (VStr source).
Proof.
  unfold package_data. intros H.
  apply bind_inv in H as (files & w1 & _ & H).
  apply bind_inv in H as (version & w2 & _ & H).
  apply bind_inv in H as (deps & w3 & _ & H).
  apply bind_inv in H as (source & w4 & Hurl & H).
  apply bind_inv in H as (url & w5 & Hrep & _).
  unfold package_url in Hurl.
  apply bind_inv in Hurl as (project & w6 & Hp & Hurl).
  unfold lift in Hp. cbn in Hp.
  destruct (Dict.lookup "project" (_setup_data self)) as [p|] eqn:Hproject;
    [|inversion Hp; subst; cbn in Hurl; discriminate].
  inversion Hp; subst; clear Hp.
  destruct (Py.truthy project); [|cbn in Hurl; discriminate].
  apply bind_inv in Hurl as (urls & w7 & Hu & Hs).
  unfold lift in Hu, Hs, Hrep.
  destruct project as [| | | | |project]; try discriminate.
  cbn in Hu. destruct (Dict.lookup "urls" project) as [u|] eqn:Hurls; [|discriminate].
  inversion Hu; subst; clear Hu.
  destruct urls as [| | | | |urls]; try discriminate.
  cbn in Hs. destruct (Dict.lookup "Source" urls) as [s|] eqn:Hsource; [|discriminate].
  inversion Hs; subst; clear Hs.
  destruct source as [| | |source| |]; try discriminate.
  now exists project, urls, source.
Qed.

(** C2 (defect of the code).  A configuration whose [project] table has
    no [urls] does not end with the mandatory-field [SystemExit]:
    [package_data] raises [KeyError] for the key ["urls"], and the
    warning about the missing source is not logged. *)
Theorem package_data_without_urls_raises_key_error :
  package_data Sample.env Widget.without_urls Widget.world
  = (Err (KeyError "urls"), Widget.world).
Proof. reflexivity. Qed.

(** ** Validation without a target manifest *)

(** C7 (as stated, refuted).  An instance without a target manifest file
    and without a [project] table: asking for the diff ends the process
    with [SystemExit], not with [Setup2uPyPackageError]. *)
Lemma validation_diff_exits_first :
  _package_file Widget.without_project = None /\
  fst (validation_diff Sample.env Widget.without_project Widget.world)
  = Err (SystemExit "Project URL is mandatory") /\
  fst (validation_diff Sample.env Widget.without_project Widget.world)
  <> Err no_manifest.
Proof. repeat split. cbn. discriminate. Qed.

(** C7 (amended).  Without a target manifest file, [validate] raises
    [Setup2uPyPackageError] before it reads anything else; the diff
    derives the manifest first, raises the same error once that
    derivation has returned, and passes on the derivation's own
    exception otherwise. *)
Theorem missing_manifest_is_reported :
  forall env self,
    _package_file self = None ->
    (forall iv id ibm w, validate env self iv id ibm w = (Err no_manifest, w)) /\
    (forall w d w', package_data env self w = (Ok d, w') ->
                    validation_diff env self w = (Err no_manifest, w')) /\
    (forall w e w', package_data env self w = (Err e, w') ->
                    validation_diff env self w = (Err e, w')).
Proof.
  intros env self Hnone. repeat split.
  - intros. unfold validate, package_json_data. rewrite Hnone. reflexivity.
  - intros w d w' Hd. unfold validation_diff.
    rewrite (bind_ok _ _ _ _ _ Hd).
    unfold package_json_data. rewrite Hnone. reflexivity.
  - intros w e w' He. unfold validation_diff. now rewrite (bind_err _ _ _ _ _ He).
Qed.

(** On the sample project with its changelog and no target manifest. *)
Lemma missing_manifest_is_reported_witness :
  _package_file Widget.with_changelog = None /\
  validate Sample.env Widget.with_changelog false false false Widget.world
  = (Err no_manifest, Widget.world) /\
  validation_diff Sample.env Widget.with_changelog Widget.world
  = (Err no_manifest, Widget.world).
Proof.
  destruct (missing_manifest_is_reported Sample.env Widget.with_changelog eq_refl)
    as (Hvalidate & Hdiff & _).
  split; [reflexivity|]. split.
  - apply Hvalidate.
  - apply (Hdiff Widget.world (Widget.expected "1.2.3")). reflexivity.
Defined.

(** ** Excluding boot and main files *)




Lemma any_in_first_entry e :
  any_in_first default_excludes (url_entry e) = Ok (is_boot_or_main e).
Proof.
  unfold is_boot_or_main. cbn.
  destruct (Str.contains "boot.py" (fst e)); cbn; [reflexivity|].
  destruct (Str.contains "main.py" (fst e)); reflexivity.
Qed.

Lemma exclude_items_entries l :
  exclude_items default_excludes (map url_entry l)
  = Ok (map url_entry (filter keep_entry l)).
Proof.
  induction l as [|e l IH]; [reflexivity|].
  cbn [map exclude_items]. rewrite any_in_first_entry. cbn [rbind].
  rewrite IH. cbn [rbind filter].
  replace (keep_entry e) with (negb (is_boot_or_main e)) by reflexivity.
  destruct (is_boot_or_main e); reflexivity.
Qed.

Lemma exclude_package_files_entries l :
  _exclude_package_files (VList (map url_entry l))
  = Ok (map url_entry (filter keep_entry l)).
Proof. unfold _exclude_package_files. cbn. apply exclude_items_entries. Qed.



(** ** The order of url entries *)

Lemma compare_refl s : String.compare s s = Eq.
Proof.
  induction s as [|a s IH]; [reflexivity|]. cbn.
  unfold Ascii.compare. now rewrite N.compare_refl.
Qed.

Lemma compare_lt_trans a b c :
  String.compare a b = Lt -> String.compare b c = Lt -> String.compare a c = Lt.
Proof.
  revert b c. induction a as [|x a IH]; intros [|y b] [|z c]; cbn; try congruence.
  unfold Ascii.compare.
  destruct (N.compare_spec (N_of_ascii x) (N_of_ascii y)),
           (N.compare_spec (N_of_ascii y) (N_of_ascii z)),
           (N.compare_spec (N_of_ascii x) (N_of_ascii z));
    try congruence; try lia; eauto.
Qed.

Lemma ltb_irrefl s : String.ltb s s = false.
Proof. unfold String.ltb. now rewrite compare_refl. Qed.

Lemma ltb_trans a b c :
  String.ltb a b = true -> String.ltb b c = true -> String.ltb a c = true.
Proof.
  unfold String.ltb. intros Hab Hbc.
  destruct (String.compare a b) eqn:H1; try discriminate.
  destruct (String.compare b c) eqn:H2; try discriminate.
  now rewrite (compare_lt_trans _ _ _ H1 H2).
Qed.

Lemma ltb_trichotomy a b :
  String.ltb b a = false -> a = b \/ String.ltb a b = true.
Proof.
  unfold String.ltb. rewrite (String.compare_antisym b a).
  destruct (String.compare a b) eqn:H; cbn; intros Hba; try discriminate.
  - left. now apply String.compare_eq_iff.
  - now right.
Qed.

Lemma entry_ltb_irrefl a : entry_ltb a a = false.
Proof. unfold entry_ltb. rewrite String.eqb_refl. apply ltb_irrefl. Qed.

Lemma entry_ltb_trans a b c :
  entry_ltb a b = true -> entry_ltb b c = true -> entry_ltb a c = true.
Proof.
  unfold entry_ltb. destruct a as [a1 a2], b as [b1 b2], c as [c1 c2]; cbn.
  destruct (String.eqb_spec a1 b1) as [Hab|Hab], (String.eqb_spec b1 c1) as [Hbc|Hbc],
           (String.eqb_spec a1 c1) as [Hac|Hac]; subst; try congruence;
    try apply ltb_trans; auto.
  intros H1 H2. pose proof (ltb_trans _ _ _ H1 H2) as H13.
  rewrite ltb_irrefl in H13. discriminate.
Qed.

Lemma entry_trichotomy a b :
  entry_ltb b a = false -> a = b \/ entry_ltb a b = true.
Proof.
  unfold entry_ltb. destruct a as [a1 a2], b as [b1 b2]; cbn.
  rewrite (String.eqb_sym b1 a1).
  destruct (String.eqb_spec a1 b1) as [->|Hne]; intros H.
  - destruct (ltb_trichotomy _ _ H) as [->|Hlt]; auto.
  - destruct (ltb_trichotomy _ _ H) as [->|Hlt]; [contradiction | auto].
Qed.

Lemma entry_le_trans a b c : entry_le a b -> entry_le b c -> entry_le a c.
Proof.
  unfold entry_le. intros Hab Hbc.
  destruct (entry_ltb c a) eqn:Hca; [|reflexivity].
  destruct (entry_trichotomy _ _ Hab) as [->|Hlt]; [congruence|].
  rewrite (entry_ltb_trans _ _ _ Hca Hlt) in Hbc. discriminate.
Qed.

Lemma entry_le_antisym a b : entry_le a b -> entry_le b a -> a = b.
Proof.
  unfold entry_le. intros Hab Hba.
  destruct (entry_trichotomy _ _ Hab) as [->|Hlt]; [reflexivity | congruence].
Qed.

Lemma entry_le_total a b : entry_ltb a b = true -> entry_le a b.
Proof.
  unfold entry_le. intros Hab.
  destruct (entry_ltb b a) eqn:Hba; [|reflexivity].
  pose proof (entry_ltb_trans _ _ _ Hab Hba) as H.
  rewrite entry_ltb_irrefl in H. discriminate.
Qed.

Lemma entry_insert_perm x l : Permutation (x :: l) (entry_insert x l).
Proof.
  induction l as [|y l IH]; cbn; [reflexivity|].
  destruct (entry_ltb y x); [|reflexivity].
  rewrite perm_swap. now constructor.
Qed.

Lemma entry_sort_perm l : Permutation l (entry_sort l).
Proof.
  induction l as [|x l IH]; cbn; [constructor|].
  rewrite <- entry_insert_perm. now constructor.
Qed.

Lemma entry_insert_sorted x l :
  StronglySorted entry_le l -> StronglySorted entry_le (entry_insert x l).
Proof.
  induction 1 as [|y l Hs IH Hall]; cbn.
  - repeat constructor.
  - destruct (entry_ltb y x) eqn:Hyx.
    + constructor; [exact IH|].
      rewrite <- entry_insert_perm. constructor; [now apply entry_le_total | exact Hall].
    + constructor; [now constructor|]. constructor; [exact Hyx|].
      eapply Forall_impl; [|exact Hall].
      intros z Hz. now apply (entry_le_trans x y z).
Qed.

Lemma entry_sort_sorted l : StronglySorted entry_le (entry_sort l).
Proof.
  induction l as [|x l IH]; cbn; [constructor | now apply entry_insert_sorted].
Qed.

(** Two sorted lists with the same entries are the same list. *)
Lemma sorted_unique l1 l2 :
  StronglySorted entry_le l1 -> StronglySorted entry_le l2 ->
  Permutation l1 l2 -> l1 = l2.
Proof.
  intros H1. revert l2. induction H1 as [|x l1 Hs1 IH Hall1]; intros l2 H2 Hp.
  - apply Permutation_nil in Hp. now subst.
  - destruct H2 as [|y l2 Hs2 Hall2].
    + apply Permutation_sym, Permutation_nil in Hp. discriminate.
    + assert (x = y) as ->.
      { apply entry_le_antisym.
        - assert (In y (x :: l1)) as [->|Hin]
              by (apply (Permutation_in y (Permutation_sym Hp)); now left).
          + unfold entry_le. apply entry_ltb_irrefl.
          + rewrite Forall_forall in Hall1. now apply Hall1.
        - assert (In x (y :: l2)) as [->|Hin]
              by (apply (Permutation_in x Hp); now left).
          + unfold entry_le. apply entry_ltb_irrefl.
          + rewrite Forall_forall in Hall2. now apply Hall2. }
      f_equal. apply IH; [exact Hs2|]. now apply Permutation_cons_inv in Hp.
Qed.

(** Sorting forgets the order the entries came in. *)
Lemma entry_sort_permutation l1 l2 :
  Permutation l1 l2 -> entry_sort l1 = entry_sort l2.
Proof.
  intros Hp. apply sorted_unique; try apply entry_sort_sorted.
  rewrite <- !entry_sort_perm. exact Hp.
Qed.


(** ** Sorting and comparing manifests *)

Lemma lt_entries a b : Py.lt (url_entry a) (url_entry b) = Ok (entry_ltb a b).
Proof.
  unfold url_entry, entry_ltb. cbn.
  destruct (String.eqb_spec (fst a) (fst b)) as [_|_]; [|reflexivity].
  destruct (String.eqb_spec (snd a) (snd b)) as [->|_]; [|reflexivity].
  now rewrite ltb_irrefl.
Qed.

Lemma insert_entries x l :
  Py.insert (url_entry x) (map url_entry l) = Ok (map url_entry (entry_insert x l)).
Proof.
  induction l as [|y l IH]; [reflexivity|].
  cbn [map Py.insert entry_insert]. rewrite lt_entries. cbn [rbind].
  destruct (entry_ltb y x); [|reflexivity].
  now rewrite IH.
Qed.

(** [sort()] on a list of url entries never raises and orders them by
    path, then URL. *)
Lemma sort_entries l :
  Py.sort (map url_entry l) = Ok (map url_entry (entry_sort l)).
Proof.
  induction l as [|x l IH]; [reflexivity|].
  cbn [map Py.sort entry_sort]. rewrite IH. cbn [rbind]. apply insert_entries.
Qed.

Lemma lookup_first {A} k (v : A) d :
  NoDup (map fst d) -> In (k, v) d -> Dict.lookup k d = Some v.
Proof.
  induction d as [|[k' v'] d IH]; cbn; intros Hnd Hin; [contradiction|].
  inversion Hnd as [|? ? Hnotin Hnd']; subst.
  destruct Hin as [Heq|Hin].
  - inversion Heq; subst. now rewrite String.eqb_refl.
  - destruct (String.eqb_spec k k') as [->|_]; [|now apply IH].
    exfalso. apply Hnotin. now apply (in_map fst) in Hin.
Qed.

Lemma bound_alike (e d : list (string * value)) :
  NoDup (map fst e) -> incl d e ->
  Forall (fun kv => Py.eq (snd kv) (snd kv) = true) d ->
  (fix go (d : list (string * value)) : bool :=
     match d with
     | [] => true
     | (k, v) :: d' =>
         match Dict.lookup k e with
         | Some v' => Py.eq v v'
         | None => false
         end && go d'
     end) d = true.
Proof.
  induction d as [|[k v] d IH]; intros Hnd Hincl Hall; [reflexivity|].
  inversion Hall as [|? ? Hv Hrest]; subst. cbn in Hv.
  rewrite (lookup_first k v e Hnd) by (apply Hincl; now left).
  rewrite Hv. cbn. apply IH; auto.
  intros x Hx. apply Hincl. now right.
Qed.

Lemma wf_members d :
  wf_value (VDict d) -> Forall (fun kv => wf_value (snd kv)) d.
Proof.
  cbn. intros [_ Hall]. induction d as [|kv d IH]; constructor.
  - apply Hall.
  - apply IH, Hall.
Qed.

(** [v == v] for every value with well-formed dicts. *)
Lemma eq_refl_wf v : wf_value v -> Py.eq v v = true.
Proof.
  induction v as [| b | z | s | l IH | d IH] using value_ind'; intros Hwf.
  - reflexivity.
  - cbn. now destruct b.
  - cbn. apply Z.eqb_refl.
  - cbn. apply String.eqb_refl.
  - cbn in Hwf |- *. revert Hwf.
    induction IH as [|x l Hx _ IHl]; intros Hwf; [reflexivity|].
    cbn in Hwf. destruct Hwf as [Hwx Hwl]. rewrite (Hx Hwx). cbn. now apply IHl.
  - pose proof (wf_members d Hwf) as Hmem.
    cbn in Hwf. destruct Hwf as [Hnd _].
    cbn. rewrite Nat.eqb_refl. cbn.
    apply bound_alike; [exact Hnd | apply incl_refl |].
    rewrite Forall_forall in *. intros kv Hkv. apply IH; auto.
Qed.

Lemma filter_permutation {A} (f : A -> bool) l1 l2 :
  Permutation l1 l2 -> Permutation (filter f l1) (filter f l2).
Proof.
  induction 1 as [| x l1 l2 _ IH | x y l | l1 l2 l3 _ IH1 _ IH2]; cbn.
  - constructor.
  - destruct (f x); [now constructor | exact IH].
  - destruct (f x), (f y); try reflexivity. constructor.
  - now transitivity (filter f l2).
Qed.

Lemma wf_entries l :
  wf_value (VList (map url_entry l)).
Proof. induction l as [|e l IH]; cbn; [exact I|]. repeat split. exact IH. Qed.

(** The comparison of two manifests with the same entries in any order. *)
Lemma compare_manifests_permuted target derived tdeps tversion ddeps dversion iv id ibm :
  Permutation target derived ->
  (iv = true \/ tversion = dversion) ->
  (id = true \/ tdeps = ddeps) ->
  wf_value ddeps -> wf_value dversion ->
  compare_manifests iv id ibm
    (manifest target tdeps tversion) (manifest derived ddeps dversion)
  = Ok true.
Proof.
  intros Hp Hv Hd Hwd Hwv.
  assert (Hsort := entry_sort_permutation _ _ Hp).
  assert (Hsortf := entry_sort_permutation _ _ (filter_permutation keep_entry _ _ Hp)).
  pose proof (wf_entries (entry_sort derived)) as Hwe.
  pose proof (wf_entries (entry_sort (filter keep_entry derived))) as Hwf.
  assert (Hnd3 : NoDup ["urls"; "deps"; "version"]).
  { repeat constructor; cbn; intuition discriminate. }
  assert (Hnd2v : NoDup ["urls"; "deps"]).
  { repeat constructor; cbn; intuition discriminate. }
  assert (Hnd2d : NoDup ["urls"; "version"]).
  { repeat constructor; cbn; intuition discriminate. }
  assert (Hnd1 : NoDup ["urls"]).
  { repeat constructor; cbn; intuition. }
  unfold compare_manifests, exclude_urls, sort_urls.
  destruct iv, id, ibm;
    cbn [pop_if manifest Dict.pop Dict.lookup Dict.set String.eqb Ascii.eqb Bool.eqb
         rbind fst snd];
    rewrite ?exclude_package_files_entries;
    cbn [pop_if manifest Dict.pop Dict.lookup Dict.set String.eqb Ascii.eqb Bool.eqb
         rbind fst snd];
    rewrite ?sort_entries;
    cbn [pop_if manifest Dict.pop Dict.lookup Dict.set String.eqb Ascii.eqb Bool.eqb
         rbind fst snd];
    rewrite ?Hsort, ?Hsortf;
    repeat match goal with
           | H : false = true \/ _ |- _ => destruct H as [H|H]; [discriminate | subst]
           end;
    f_equal; apply eq_refl_wf; cbn [wf_value map fst snd]; repeat split; assumption.
Qed.

Lemma eq_dict_unfold d e :
  Py.eq (VDict d) (VDict e)
  = Nat.eqb (List.length d) (List.length e) &&
    forallb (fun kv => match Dict.lookup (fst kv) e with
                       | Some v' => Py.eq (snd kv) v'
                       | None => false
                       end) d.
Proof.
  cbn. f_equal. induction d as [|[k v] d IH]; cbn; [reflexivity|]. now rewrite IH.
Qed.

(** The six orders of three distinct items. *)
Lemma three_orders {A} (a b c : A) l :
  a <> b -> a <> c -> b <> c -> Permutation l [a; b; c] ->
  l = [a; b; c] \/ l = [a; c; b] \/ l = [b; a; c] \/
  l = [b; c; a] \/ l = [c; a; b] \/ l = [c; b; a].
Proof.
  intros Hab Hac Hbc Hp.
  assert (Hnd : NoDup l).
  { apply (Permutation_NoDup (Permutation_sym Hp)).
    repeat constructor; cbn; intuition congruence. }
  pose proof (Permutation_length Hp) as Hlen.
  destruct l as [|x [|y [|z [|]]]]; try discriminate.
  assert (Hx : In x [a; b; c]) by (apply (Permutation_in _ Hp); cbn; auto).
  assert (Hy : In y [a; b; c]) by (apply (Permutation_in _ Hp); cbn; auto).
  assert (Hz : In z [a; b; c]) by (apply (Permutation_in _ Hp); cbn; auto).
  inversion Hnd as [|? ? Hx' Hnd']; subst.
  inversion Hnd' as [|? ? Hy' _]; subst.
  cbn in Hx, Hy, Hz, Hx', Hy'.
  destruct Hx as [<-|[<-|[<-|[]]]], Hy as [<-|[<-|[<-|[]]]], Hz as [<-|[<-|[<-|[]]]];
    try (exfalso; tauto); tauto.
Qed.

(** The comparison when the target holds the bindings of a manifest in
    any key order and its entries in any order. *)
Lemma compare_manifests_reordered loaded target derived tdeps tversion ddeps dversion
    iv id ibm :
  Permutation loaded (manifest target tdeps tversion) ->
  Permutation target derived ->
  (iv = true \/ tversion = dversion) ->
  (id = true \/ tdeps = ddeps) ->
  wf_value ddeps -> wf_value dversion ->
  compare_manifests iv id ibm loaded (manifest derived ddeps dversion) = Ok true.
Proof.
  intros Hkeys Hp Hv Hd Hwd Hwv.
  assert (Hsort := entry_sort_permutation _ _ Hp).
  assert (Hsortf := entry_sort_permutation _ _ (filter_permutation keep_entry _ _ Hp)).
  pose proof (eq_refl_wf _ (wf_entries (entry_sort derived))) as Hwe.
  pose proof (eq_refl_wf _ (wf_entries (entry_sort (filter keep_entry derived)))) as Hwf.
  pose proof (eq_refl_wf _ Hwd) as Hed.
  pose proof (eq_refl_wf _ Hwv) as Hev.
  apply three_orders in Hkeys;
    [| intros H; inversion H | intros H; inversion H | intros H; inversion H].
  unfold compare_manifests, exclude_urls, sort_urls.
  destruct Hkeys as [->|[->|[->|[->|[->| ->]]]]];
    destruct iv, id, ibm;
    cbn [pop_if manifest Dict.pop Dict.lookup Dict.set String.eqb Ascii.eqb Bool.eqb
         rbind fst snd];
    rewrite ?exclude_package_files_entries;
    cbn [pop_if manifest Dict.pop Dict.lookup Dict.set String.eqb Ascii.eqb Bool.eqb
         rbind fst snd];
    rewrite ?sort_entries;
    cbn [pop_if manifest Dict.pop Dict.lookup Dict.set String.eqb Ascii.eqb Bool.eqb
         rbind fst snd];
    rewrite ?Hsort, ?Hsortf;
    repeat match goal with
           | H : false = true \/ _ |- _ => destruct H as [H|H]; [discriminate | subst]
           end;
    rewrite eq_dict_unfold;
    cbn [List.length Nat.eqb forallb Dict.lookup String.eqb Ascii.eqb Bool.eqb
         fst snd andb];
    rewrite ?Hwe, ?Hwf, ?Hed, ?Hev; reflexivity.
Qed.

(** C5.  Comparison is reflexive and blind to the order of [urls].  A
    manifest compared with itself gives [True] under every choice of
    flags; and when the target holds the entries of the derived
    manifest in any order, with version and deps either ignored or
    equal, [validate] returns [True].  The order of the keys of the
    loaded document does not matter either. *)
Theorem validate_ignores_url_order :
  (forall urls deps version iv id ibm,
      wf_value deps -> wf_value version ->
      compare_manifests iv id ibm (manifest urls deps version)
        (manifest urls deps version) = Ok true) /\
  (forall env self w w1 w2 loaded target derived tdeps tversion ddeps dversion
          iv id ibm,
      package_json_data env self w = (Ok (VDict loaded), w1) ->
      Permutation loaded (manifest target tdeps tversion) ->
      package_data env self w1 = (Ok (VDict (manifest derived ddeps dversion)), w2) ->
      Permutation target derived ->
      (iv = true \/ tversion = dversion) ->
      (id = true \/ tdeps = ddeps) ->
      wf_value ddeps -> wf_value dversion ->
      validate env self iv id ibm w = (Ok true, w2)).
Proof.
  split.
  - intros. apply compare_manifests_permuted; auto.
  - intros env self w w1 w2 loaded target derived tdeps tversion ddeps dversion
           iv id ibm Hjson Hkeys Hdata Hp Hv Hd Hwd Hwv.
    unfold validate.
    rewrite (bind_ok _ _ _ _ _ Hjson). unfold lift at 1. cbn [bind Py.to_dict].
    rewrite (bind_ok _ _ _ _ _ Hdata). unfold lift. cbn [bind Py.to_dict].
    now rewrite (compare_manifests_reordered _ _ _ _ _ _ _ _ _ _ Hkeys Hp Hv Hd Hwd Hwv).
Qed.

(** A published manifest with other key and entry orders and an older
    version, validated with the version ignored. *)
Lemma validate_ignores_url_order_witness :
  validate Sample.env Widget.with_manifest true false false Widget.published_world
  = (Ok true, Widget.published_world).
Proof.
  apply (proj2 validate_ignores_url_order Sample.env Widget.with_manifest
           Widget.published_world Widget.published_world Widget.published_world
           [("version", VStr "1.2.2");
            ("urls", VList (map url_entry
                              [("widget/core.py", "github:acme/widget/widget/core.py");
                               ("widget/__init__.py",
                                "github:acme/widget/widget/__init__.py")]));
            ("deps", VList [VStr "urequests"])]
           [("widget/core.py", "github:acme/widget/widget/core.py");
            ("widget/__init__.py", "github:acme/widget/widget/__init__.py")]
           [("widget/__init__.py", "github:acme/widget/widget/__init__.py");
            ("widget/core.py", "github:acme/widget/widget/core.py")]
           (VList [VStr "urequests"]) (VStr "1.2.2")
           (VList [VStr "urequests"]) (VStr "1.2.3")).
  - vm_compute. reflexivity.
  - unfold manifest.
    apply (Permutation_cons_app [_; _] [] _). apply Permutation_refl.
  - vm_compute. reflexivity.
  - apply perm_swap.
  - now left.
  - now right.
  - cbn. auto.
  - exact I.
Defined.

(** ** Entries and files *)






(** What [package_data] returns, in terms of its parts. *)
Lemma package_data_inv env self w d w' :
  package_data env self w = (Ok d, w') ->
  exists files version deps url,
    package_files env self (fs w) = Ok files /\
    d = VDict [("urls", VList (map (url_element url) files));
               ("deps", deps); ("version", version)].
Proof.
  unfold package_data. intros H.
  apply bind_inv in H as (files & w1 & Hfiles & H).
  apply bind_inv in H as (version & w2 & _ & H).
  apply bind_inv in H as (deps & w3 & _ & H).
  apply bind_inv in H as (source & w4 & _ & H).
  apply bind_inv in H as (url & w5 & _ & H).
  unfold reading in Hfiles. inversion Hfiles; subst; clear Hfiles.
  unfold ret in H. inversion H; subst; clear H.
  exists files, version, deps, url. split; [assumption|].
  unfold _create_url_elements, data_files. cbn. now rewrite app_nil_r.
Qed.



(** ** Package discovery *)

Lemma resolve_packages_ext env env' self packages package_dir acc :
  find_package_path env = find_package_path env' ->
  resolve_packages env self packages package_dir acc
  = resolve_packages env' self packages package_dir acc.
Proof.
  intros Hsame. revert acc.
  induction packages as [|package rest IH]; intros acc; [reflexivity|].
  destruct package; try reflexivity.
  cbn. rewrite Hsame.
  destruct (find_package_path env' s package_dir (_root_dir self)); cbn; auto.
Qed.

Lemma set_keys {A} k (v : A) d name :
  In name (map fst (Dict.set k v d)) <-> name = k \/ In name (map fst d).
Proof.
  induction d as [|[k' v'] d IH]; cbn.
  - intuition.
  - destruct (String.eqb_spec k k') as [->|Hne]; cbn.
    + intuition.
    + rewrite IH. intuition.
Qed.

Lemma resolve_packages_keys env self packages package_dir acc paths :
  resolve_packages env self packages package_dir acc = Ok paths ->
  forall name, In name (map fst paths) <->
               In name (map fst acc) \/ In (VStr name) packages.
Proof.
  revert acc. induction packages as [|package rest IH]; intros acc H name.
  - cbn in H. inversion H; subst. cbn. intuition.
  - destruct package; try discriminate.
    cbn in H. apply rbind_inv in H as (path & _ & H).
    rewrite (IH _ H name), set_keys. cbn.
    split; [intros [[->|Hin]|Hin] | intros [Hin|[Heq|Hin]]]; auto.
    inversion Heq. auto.
Qed.

(** C9.  When [tool.setuptools.packages] is a list, discovery resolves
    the listed names through [package-dir] and nothing else: the result
    does not depend on the disk or on the auto-discovery collaborator,
    and the packages found are exactly the listed names.  The [find]
    rules and [find_namespace_packages] come into play only when the
    entry is not a list. *)
Theorem explicit_list_takes_precedence :
  forall self packages_setup,
    tool_setuptools self "packages" (VDict []) = Ok packages_setup ->
    (forall listed, packages_setup = VList listed ->
       (forall env f,
           _find_packages env self f None
           = (package_dir <-? tool_setuptools self "package-dir"
                                (VDict [("", VStr ".")]) ;;
              resolve_packages env self listed package_dir [])) /\
       (forall env env' f f' name,
           find_package_path env = find_package_path env' ->
           _find_packages env self f name = _find_packages env' self f' name) /\
       (forall env f paths,
           _find_packages env self f None = Ok paths ->
           forall name, In name (map fst paths) <-> In (VStr name) listed)) /\
    ((forall listed, packages_setup <> VList listed) ->
       forall env f name,
         _find_packages env self f name
         = (find <-? Py.get "find" (VDict []) packages_setup ;;
            where_ <-? Py.get "where" (VList [VStr "."]) find ;;
            dirs <-? Py.iter where_ ;;
            discover_packages env self f name find dirs [])).
Proof.
  intros self packages_setup Hsetup. split.
  - intros listed ->. repeat split.
    + intros. unfold _find_packages. now rewrite Hsetup.
    + intros env env' f f' name Hsame. unfold _find_packages. rewrite Hsetup. cbn [rbind].
      destruct (tool_setuptools self "package-dir" (VDict [("", VStr ".")])); cbn [rbind];
        [now apply resolve_packages_ext | reflexivity].
    + unfold _find_packages in H. rewrite Hsetup in H. cbn [rbind] in H.
      apply rbind_inv in H as (package_dir & _ & H).
      intros Hin. apply (resolve_packages_keys _ _ _ _ _ _ H) in Hin.
      now destruct Hin.
    + unfold _find_packages in H. rewrite Hsetup in H. cbn [rbind] in H.
      apply rbind_inv in H as (package_dir & _ & H).
      intros Hin. apply (resolve_packages_keys _ _ _ _ _ _ H). now right.
  - intros Hnot env f name. unfold _find_packages. rewrite Hsetup. cbn [rbind].
    destruct packages_setup; try reflexivity. now elim (Hnot l).
Qed.

(** The sample project lists its one package. *)
Lemma explicit_list_takes_precedence_witness :
  _find_packages Sample.env Widget.plain Widget.files None
  = Ok [("widget", "././widget")].
Proof.
  destruct (explicit_list_takes_precedence Widget.plain (VList [VStr "widget"]) eq_refl)
    as [Hlist _].
  destruct (Hlist [VStr "widget"] eq_refl) as (Hresolve & _ & _).
  rewrite Hresolve. reflexivity.
Defined.

(** ** The source of the version *)

Section OutsideDynamic.

Variable env : Env.
Variables self other : Pyproject2uPyPackage.
Hypothesis Hagree : agree_outside_dynamic self other.

Lemma root_dir_agrees : _root_dir self = _root_dir other.
Proof. unfold _root_dir. now rewrite (proj1 Hagree). Qed.

Lemma resolve_packages_agrees packages package_dir acc :
  resolve_packages env self packages package_dir acc
  = resolve_packages env other packages package_dir acc.
Proof.
  revert acc. induction packages as [|package rest IH]; intros acc; [reflexivity|].
  destruct package; try reflexivity.
  cbn. rewrite root_dir_agrees.
  destruct (find_package_path env s package_dir (_root_dir other)); cbn; auto.
Qed.

Lemma discover_packages_agrees f name find dirs acc :
  discover_packages env self f name find dirs acc
  = discover_packages env other f name find dirs acc.
Proof.
  revert acc. induction dirs as [|dir rest IH]; intros acc; [reflexivity|].
  cbn [discover_packages].
  destruct (match name with
            | Some n => Ok [VStr n]
            | None =>
                include <-? Py.get "include" (VList [VStr "*"]) find ;;
                exclude <-? Py.get "exclude" (VList []) find ;;
                names <-? find_namespace_packages env f dir include exclude ;;
                Ok (map VStr names)
            end) as [packages|e]; [|reflexivity].
  cbn [rbind]. rewrite resolve_packages_agrees.
  destruct (resolve_packages env other packages (VDict [("", dir)]) acc);
    cbn [rbind]; auto.
Qed.

Lemma find_packages_agrees f name :
  _find_packages env self f name = _find_packages env other f name.
Proof.
  destruct Hagree as (_ & _ & _ & _ & Htool).
  unfold _find_packages.
  rewrite (Htool "packages" (VDict [])) by discriminate.
  destruct (tool_setuptools other "packages" (VDict [])) as [setup|e]; [|reflexivity].
  cbn [rbind].
  rewrite (Htool "package-dir" (VDict [("", VStr ".")])) by discriminate.
  destruct setup;
    try (destruct (Py.get "find" (VDict []) _) as [find|]; [|reflexivity];
         cbn [rbind];
         destruct (Py.get "where" (VList [VStr "."]) find) as [where_|]; [|reflexivity];
         cbn [rbind];
         destruct (Py.iter where_) as [dirs|]; [|reflexivity];
         cbn [rbind]; apply discover_packages_agrees).
  destruct (tool_setuptools other "package-dir" (VDict [("", VStr ".")]));
    cbn [rbind]; [apply resolve_packages_agrees | reflexivity].
Qed.

Lemma relative_files_agrees f p :
  relative_files env self f p = relative_files env other f p.
Proof.
  induction p as [|x p IH]; [reflexivity|].
  cbn. rewrite root_dir_agrees, IH. reflexivity.
Qed.

Lemma collect_files_agrees f paths acc :
  collect_files env self f paths acc = collect_files env other f paths acc.
Proof.
  revert acc. induction paths as [|info rest IH]; intros acc; [reflexivity|].
  cbn. rewrite root_dir_agrees.
  destruct (PathOps.relative_to (PathOps.of_str (snd info)) (_root_dir other));
    [|reflexivity].
  cbn [rbind]. rewrite relative_files_agrees.
  destruct (relative_files env other f _); cbn [rbind]; auto.
Qed.

Lemma package_files_agrees f :
  package_files env self f = package_files env other f.
Proof.
  unfold package_files. rewrite find_packages_agrees.
  destruct (_find_packages env other f None); cbn [rbind];
    [apply collect_files_agrees | reflexivity].
Qed.

Lemma package_changelog_version_agrees w :
  package_changelog_version env self w = package_changelog_version env other w.
Proof.
  destruct Hagree as (_ & _ & Hlog & _).
  unfold package_changelog_version. now rewrite Hlog.
Qed.

Lemma package_deps_agrees w : package_deps self w = package_deps other w.
Proof.
  destruct Hagree as (_ & _ & _ & Hproject & _).
  unfold package_deps, bind, lift. cbn. now rewrite Hproject.
Qed.

Lemma package_url_agrees w : package_url self w = package_url other w.
Proof.
  destruct Hagree as (_ & _ & _ & Hproject & _).
  unfold package_url, bind, lift. cbn. now rewrite Hproject.
Qed.

(** With a changelog supplied the two configurations derive alike. *)
Lemma package_data_agrees changelog_file w :
  _package_changelog_file self = Some changelog_file ->
  package_data env self w = package_data env other w.
Proof.
  intros Hlog. pose proof Hagree as (_ & _ & Hsame & _).
  unfold package_data. rewrite <- Hsame, Hlog.
  unfold bind, reading. rewrite package_files_agrees.
  destruct (package_files env other (fs w)); [|reflexivity].
  rewrite package_changelog_version_agrees.
  destruct (package_changelog_version env other w) as [[version|] w1]; [|reflexivity].
  rewrite package_deps_agrees.
  destruct (package_deps other w1) as [[deps|] w2]; [|reflexivity].
  rewrite package_url_agrees. reflexivity.
Qed.

End OutsideDynamic.

(** C10.  With a changelog file supplied, the version of every derived
    manifest is the one the changelog collaborator extracts, and the
    derivation is the same for any configuration that differs only under
    [tool.setuptools.dynamic]; without a changelog file the version is
    what [package_version] returns. *)
Theorem changelog_version_takes_precedence :
  forall env self,
    (forall changelog_file,
        _package_changelog_file self = Some changelog_file ->
        (forall w d w',
            package_data env self w = (Ok d, w') ->
            exists line semver,
              parse_changelog env (fs w) changelog_file = Ok line /\
              parse_semver_line env line = Ok semver /\
              Py.getitem "version" d = Ok (VStr semver)) /\
        (forall other w,
            agree_outside_dynamic self other ->
            package_data env other w = package_data env self w)) /\
    (_package_changelog_file self = None ->
     forall w d w',
       package_data env self w = (Ok d, w') ->
       exists version w1,
         package_version env self w = (Ok version, w1) /\
         Py.getitem "version" d = Ok version).
Proof.
  intros env self. split.
  - intros changelog_file Hlog. split.
    + intros w d w' H. unfold package_data in H. rewrite Hlog in H.
      apply bind_inv in H as (files & w1 & Hfiles & H).
      apply bind_inv in H as (version & w2 & Hversion & H).
      apply bind_inv in H as (deps & w3 & _ & H).
      apply bind_inv in H as (source & w4 & _ & H).
      apply bind_inv in H as (url & w5 & _ & H).
      unfold reading in Hfiles. inversion Hfiles; subst; clear Hfiles.
      unfold ret in H. inversion H; subst; clear H.
      unfold package_changelog_version in Hversion. rewrite Hlog in Hversion.
      apply bind_inv in Hversion as (line & w6 & Hline & Hversion).
      apply bind_inv in Hversion as (semver & w7 & Hsemver & Hversion).
      unfold reading in Hline. unfold lift in Hsemver. unfold ret in Hversion.
      inversion Hline; subst. inversion Hsemver; subst. inversion Hversion; subst.
      exists line, semver. repeat split; auto.
    + intros other w Hagree. symmetry.
      now apply (package_data_agrees env self other Hagree changelog_file).
  - intros Hnone w d w' H. unfold package_data in H. rewrite Hnone in H.
    apply bind_inv in H as (files & w1 & Hfiles & H).
    apply bind_inv in H as (version & w2 & Hversion & H).
    apply bind_inv in H as (deps & w3 & _ & H).
    apply bind_inv in H as (source & w4 & _ & H).
    apply bind_inv in H as (url & w5 & _ & H).
    unfold reading in Hfiles. inversion Hfiles; subst; clear Hfiles.
    unfold ret in H. inversion H; subst; clear H.
    exists version, w2. split; [exact Hversion | reflexivity].
Qed.

(** The sample project with and without a dynamic version declared. *)
Lemma widget_agrees_outside_dynamic :
  agree_outside_dynamic Widget.with_changelog Widget.dynamic_with_changelog.
Proof.
  repeat split. intros key default Hkey.
  unfold tool_setuptools. cbn.
  destruct (String.eqb_spec key "packages") as [_|_]; [reflexivity|].
  destruct (String.eqb_spec key "dynamic") as [->|_]; [now elim Hkey | reflexivity].
Qed.

(** The changelog's version wins on the sample project, declared
    dynamic version or not; without a changelog the module's version is
    read. *)
Lemma changelog_version_takes_precedence_witness :
  (exists line semver,
      parse_changelog Sample.env Widget.files Widget.changelog_file = Ok line /\
      parse_semver_line Sample.env line = Ok semver /\
      Py.getitem "version" (Widget.expected "1.2.3") = Ok (VStr semver)) /\
  package_data Sample.env Widget.dynamic_with_changelog Widget.versioned_world
  = package_data Sample.env Widget.with_changelog Widget.versioned_world /\
  (exists version w1,
      package_version Sample.env Widget.dynamic Widget.versioned_world
      = (Ok version, w1) /\
      Py.getitem "version"
        (VDict (manifest
                  [("widget/__init__.py", "github:acme/widget/widget/__init__.py");
                   ("widget/core.py", "github:acme/widget/widget/core.py");
                   ("widget/version.py", "github:acme/widget/widget/version.py")]
                  (VList [VStr "urequests"]) (VStr "2.0.1")))
      = Ok version).
Proof.
  destruct (changelog_version_takes_precedence Sample.env Widget.with_changelog)
    as [Hsome _].
  destruct (Hsome Widget.changelog_file eq_refl) as [Hversion Hsame].
  destruct (changelog_version_takes_precedence Sample.env Widget.dynamic)
    as [_ Hnone].
  split; [|split].
  - apply (Hversion Widget.world (Widget.expected "1.2.3") Widget.world). reflexivity.
  - apply Hsame. exact widget_agrees_outside_dynamic.
  - apply (Hnone eq_refl Widget.versioned_world _ Widget.versioned_world). reflexivity.
Defined.

(** ** Persisting and loading *)

Lemma steady_ret {A} (a : A) : steady (ret a).
Proof. intros f l l'. now split. Qed.

Lemma steady_raise {A} e : steady (@raise A e).
Proof. intros f l l'. now split. Qed.

Lemma steady_lift {A} (r : res A) : steady (lift r).
Proof. intros f l l'. now split. Qed.

Lemma steady_reading {A} (rd : FS -> res A) : steady (reading rd).
Proof. intros f l l'. now split. Qed.

Lemma steady_logger level msg : steady (logger level msg).
Proof. intros f l l'. now split. Qed.

Lemma steady_bind {A B} (c : M A) (k : A -> M B) :
  steady c -> (forall a, steady (k a)) -> steady (bind c k).
Proof.
  intros Hc Hk f l l'. unfold bind.
  destruct (Hc f l l') as [Hsame Hfs]. destruct (Hc f l' l) as [_ Hfs'].
  destruct (c {| fs := f; log := l |}) as [r [f1 l1]].
  destruct (c {| fs := f; log := l' |}) as [r' [f1' l1']].
  cbn in *. subst. destruct r' as [a|e]; [|now split].
  apply Hk.
Qed.

Ltac steady_step :=
  first [ apply steady_ret | apply steady_raise | apply steady_lift
        | apply steady_reading | apply steady_logger
        | apply steady_bind; [|intros ?] ].

Lemma steady_package_version env self : steady (package_version env self).
Proof.
  unfold package_version. repeat steady_step.
  destruct (Py.truthy _); repeat steady_step.
Qed.

Lemma steady_package_changelog_version env self :
  steady (package_changelog_version env self).
Proof.
  unfold package_changelog_version.
  destruct (_package_changelog_file self); repeat steady_step.
Qed.

Lemma steady_package_deps self : steady (package_deps self).
Proof.
  unfold package_deps. repeat steady_step.
  destruct (Py.truthy _); repeat steady_step.
Qed.

Lemma steady_package_url self : steady (package_url self).
Proof.
  unfold package_url. repeat steady_step.
  destruct (Py.truthy _); repeat steady_step.
Qed.

Lemma steady_package_data env self : steady (package_data env self).
Proof.
  unfold package_data. steady_step; [steady_step|].
  steady_step.
  { destruct (_package_changelog_file self);
      [apply steady_package_changelog_version | apply steady_package_version]. }
  steady_step; [apply steady_package_deps|].
  steady_step; [apply steady_package_url|].
  repeat steady_step.
Qed.

Lemma set_set {A} k (v v' : A) d :
  Dict.set k v (Dict.set k v' d) = Dict.set k v d.
Proof.
  induction d as [|[k' x] d IH]; cbn.
  - now rewrite String.eqb_refl.
  - destruct (String.eqb_spec k k') as [->|Hne]; cbn.
    + now rewrite String.eqb_refl.
    + rewrite (proj2 (String.eqb_neq _ _) Hne). now rewrite IH.
Qed.

Lemma lookup_set {A} k (v : A) d : Dict.lookup k (Dict.set k v d) = Some v.
Proof.
  induction d as [|[k' x] d IH]; cbn.
  - now rewrite String.eqb_refl.
  - destruct (String.eqb_spec k k') as [->|Hne]; cbn.
    + now rewrite String.eqb_refl.
    + now rewrite (proj2 (String.eqb_neq _ _) Hne).
Qed.

(** [create] returns whenever the target can be opened, the derivation
    returns with the target open and empty, and [json] can write the
    manifest. *)
Lemma create_returns env self package_file output_path (pretty : bool) w d w' text :
  _package_file self = Some package_file ->
  (output_path = None \/ output_path = Some package_file) ->
  can_open_w env (fs w) package_file = true ->
  package_data env self {| fs := Files.put package_file "" (fs w); log := log w |}
  = (Ok d, w') ->
  json_dumps env (if pretty then Some 4%nat else None) d = Ok text ->
  create env self output_path pretty w
  = (Ok tt, {| fs := Files.put package_file text (fs w'); log := log w' |}).
Proof.
  intros Hfile Hout Hopen Hd Htext. unfold create.
  assert (Hpath : (match output_path with
                   | Some p => ret p
                   | None =>
                       match _package_file self with
                       | Some package_file => ret package_file
                       | None =>
                           logger INFO "No package.json data specified, using setup.py directory" ;;;
                           ret (PathOps.join (PathOps.parent (_project_config_file self))
                                  (PathOps.of_str "package.json"))
                       end
                   end) w = (Ok package_file, w)).
  { destruct Hout as [->| ->]; [now rewrite Hfile | reflexivity]. }
  rewrite (bind_ok _ _ _ _ _ Hpath).
  unfold bind at 1. unfold open_w. rewrite Hopen.
  rewrite (bind_ok _ _ _ _ _ Hd).
  unfold bind, lift. rewrite Htext. reflexivity.
Qed.

(** What a successful [create] leaves behind: the manifest it derived
    with the target file open and empty, written to that file. *)
Lemma create_inv env self package_file output_path pretty w w1 :
  _package_file self = Some package_file ->
  (output_path = None \/ output_path = Some package_file) ->
  create env self output_path pretty w = (Ok tt, w1) ->
  exists d l text,
    fst (package_data env self
           {| fs := Files.put package_file "" (fs w); log := l |}) = Ok d /\
    json_dumps env (if pretty then Some 4%nat else None) d = Ok text /\
    fs w1 = Files.put package_file text (fs w).
Proof.
  intros Hfile Hout H. unfold create in H.
  assert (Hpath : (match output_path with
                   | Some p => ret p
                   | None =>
                       match _package_file self with
                       | Some package_file => ret package_file
                       | None =>
                           logger INFO "No package.json data specified, using setup.py directory" ;;;
                           ret (PathOps.join (PathOps.parent (_project_config_file self))
                                  (PathOps.of_str "package.json"))
                       end
                   end) w = (Ok package_file, w)).
  { destruct Hout as [->| ->]; [now rewrite Hfile | reflexivity]. }
  rewrite (bind_ok _ _ _ _ _ Hpath) in H.
  apply bind_inv in H as ([] & wo & Hopen & H).
  unfold open_w in Hopen.
  destruct (can_open_w env (fs w) package_file); [|discriminate].
  inversion Hopen; subst; clear Hopen.
  apply bind_inv in H as (d & wd & Hd & H).
  apply bind_inv in H as (text & wt & Htext & H).
  unfold lift in Htext. inversion Htext; subst; clear Htext.
  unfold write in H. inversion H; subst; clear H.
  destruct (steady_package_data env self (Files.put package_file "" (fs w))
              (log w) (log w)) as [_ Hfs].
  rewrite Hd in Hfs. cbn in Hfs.
  exists d, (log w), text. rewrite Hd. cbn. repeat split; auto.
  rewrite Hfs. unfold Files.put. apply set_set.
Qed.



(** * Further properties of the class *)

(** ** Dependencies *)

Lemma world_eta (w : World) : {| fs := fs w; log := log w |} = w.
Proof. now destruct w. Qed.

Lemma package_deps_unfold self w :
  package_deps self w
  = match Py.get "project" (VDict []) (VDict (_setup_data self)) with
    | Err e => (Err e, w)
    | Ok project =>
        match Py.get "dependencies" VNone project with
        | Err e => (Err e, w)
        | Ok dependencies =>
            if Py.truthy dependencies then (Ok dependencies, w)
            else (Ok (VList []),
                  {| fs := fs w; log := log w ++ [no_dependencies] |})
        end
    end.
Proof.
  unfold package_deps, bind, lift.
  destruct (Py.get "project" (VDict []) (VDict (_setup_data self))) as [project|e];
    [|reflexivity].
  destruct (Py.get "dependencies" VNone project) as [deps|e]; [|reflexivity].
  destruct (Py.truthy deps); reflexivity.
Qed.

(** X1.  [package_deps] fails soft.  With the [project] table present or
    absent it returns: the declared dependencies untouched and nothing
    logged when they are truthy, the empty list and one warning when
    they are missing or empty.  What it returns is always the empty list
    or a truthy value, and it only raises when [project] is no table. *)
Theorem package_deps_fails_soft :
  forall self w,
    (forall project,
        Py.get "project" (VDict []) (VDict (_setup_data self)) = Ok (VDict project) ->
        package_deps self w
        = if Py.truthy (declared_dependencies project)
          then (Ok (declared_dependencies project), w)
          else (Ok (VList []),
                {| fs := fs w; log := log w ++ [no_dependencies] |})) /\
    (forall v w', package_deps self w = (Ok v, w') ->
                  v = VList [] \/ Py.truthy v = true) /\
    (forall e w', package_deps self w = (Err e, w') ->
                  e = AttributeError "get" /\ w' = w /\
                  exists v, Dict.lookup "project" (_setup_data self) = Some v /\
                            forall project, v <> VDict project).
Proof.
  intros self w. rewrite package_deps_unfold. split; [|split].
  - intros project ->. reflexivity.
  - intros v w'.
    destruct (Py.get "project" (VDict []) (VDict (_setup_data self))) as [project|e];
      [|discriminate].
    destruct (Py.get "dependencies" VNone project) as [deps|e]; [|discriminate].
    destruct (Py.truthy deps) eqn:Ht; intros H; inversion H; subst; auto.
  - intros e w' H. cbn in H.
    destruct (Dict.lookup "project" (_setup_data self)) as [v|] eqn:Hp.
    + destruct v; cbn in H;
        try (inversion H; subst; repeat split; eexists; split;
             [reflexivity | intros project; discriminate]).
      destruct (Py.truthy _); discriminate.
    + cbn in H. discriminate.
Qed.

(** The sample project declares its dependencies; stripped of its
    [project] table it has none. *)
Lemma package_deps_fails_soft_witness :
  package_deps Widget.plain Widget.world
  = (Ok (VList [VStr "urequests"]), Widget.world) /\
  package_deps Widget.without_project Widget.world
  = (Ok (VList []), {| fs := Widget.files; log := [no_dependencies] |}).
Proof.
  split.
  - apply (proj1 (package_deps_fails_soft Widget.plain Widget.world)
             [("name", VStr "widget");
              ("dependencies", VList [VStr "urequests"]);
              ("urls", VDict [("Source", VStr "https://github.com/acme/widget")])]).
    reflexivity.
  - apply (proj1 (package_deps_fails_soft Widget.without_project Widget.world) []).
    reflexivity.
Defined.

(** ** The source URL, case by case *)

Lemma package_url_unfold self w :
  package_url self w
  = match Dict.lookup "project" (_setup_data self) with
    | Some project =>
        if Py.truthy project then
          match Py.getitem "urls" project with
          | Ok urls => (Py.getitem "Source" urls, w)
          | Err e => (Err e, w)
          end
        else (Err (SystemExit "Project URL is mandatory"),
              {| fs := fs w;
                 log := log w ++ [(WARNING, "No 'urls[Source]' key found in setup data dict")] |})
    | None => (Err (SystemExit "Project URL is mandatory"),
               {| fs := fs w;
                  log := log w ++ [(WARNING, "No 'urls[Source]' key found in setup data dict")] |})
    end.
Proof.
  unfold package_url, bind, lift. cbn.
  destruct (Dict.lookup "project" (_setup_data self)) as [project|]; [|reflexivity].
  destruct (Py.truthy project); [|reflexivity].
  destruct (Py.getitem "urls" project); reflexivity.
Qed.

Lemma getitem_ok k v x :
  Py.getitem k v = Ok x <-> exists d, v = VDict d /\ Dict.lookup k d = Some x.
Proof.
  split.
  - destruct v; try discriminate. cbn.
    destruct (Dict.lookup k d) eqn:H; [|discriminate].
    intros E. inversion E; subst. now exists d.
  - intros (d & -> & H). cbn. now rewrite H.
Qed.

Lemma getitem_never_exits k v msg : Py.getitem k v <> Err (SystemExit msg).
Proof. destruct v; cbn; try discriminate. destruct (Dict.lookup k d); discriminate. Qed.

(** X2.  [package_url] returns a value exactly when the configuration
    holds [project.urls.Source], and then it is that value with nothing
    logged; it ends the run with [SystemExit] exactly when the [project]
    entry is absent or falsy (an empty table counts).  Every other
    configuration raises something else. *)
Theorem package_url_outcomes :
  forall self w,
    (forall v w',
        package_url self w = (Ok v, w') <->
        w' = w /\
        exists project urls,
          Dict.lookup "project" (_setup_data self) = Some (VDict project) /\
          Dict.lookup "urls" project = Some (VDict urls) /\
          Dict.lookup "Source" urls = Some v) /\
    (fst (package_url self w) = Err (SystemExit "Project URL is mandatory") <->
     match Dict.lookup "project" (_setup_data self) with
     | Some project => Py.truthy project = false
     | None => True
     end).
Proof.
  intros self w. rewrite package_url_unfold. split.
  - intros v w'. split.
    + destruct (Dict.lookup "project" (_setup_data self)) as [project|]; [|discriminate].
      destruct (Py.truthy project); [|discriminate].
      destruct (Py.getitem "urls" project) as [urls|e] eqn:Hu; [|discriminate].
      intros H. inversion H as [[Hs Hw]]. split; [reflexivity|].
      apply getitem_ok in Hu as (p & -> & Hu).
      apply getitem_ok in Hs as (u & -> & Hs).
      now exists p, u.
    + intros (-> & project & urls & Hp & Hu & Hs). rewrite Hp.
      assert (Py.truthy (VDict project) = true) as ->
          by (destruct project; [discriminate | reflexivity]).
      cbn. rewrite Hu. cbn. now rewrite Hs.
  - destruct (Dict.lookup "project" (_setup_data self)) as [project|]; [|now split].
    destruct (Py.truthy project); [|now split].
    split; [|discriminate].
    destruct (Py.getitem "urls" project) as [urls|e] eqn:Hu; cbn.
    + intros H. now apply getitem_never_exits in H.
    + intros H. rewrite H in Hu. now apply getitem_never_exits in Hu.
Qed.

(** ** The version, case by case *)

Lemma log_grows_not (w : World) (r : Level * string) :
  w <> {| fs := fs w; log := log w ++ [r] |}.
Proof.
  intros H. apply (f_equal log) in H. cbn in H.
  apply (f_equal (@List.length _)) in H. rewrite length_app in H. cbn in H. lia.
Qed.

(** X3.  [package_version] logs its warning and returns the sentinel
    exactly when the configuration declares
    [tool.setuptools.dynamic.version] as a table whose [attr] is falsy.
    A missing entry, a missing [attr] or a truthy one never ends
    there. *)
Theorem package_version_soft_branch :
  forall env self w,
    package_version env self w
    = (Ok (VStr sentinel), {| fs := fs w; log := log w ++ [no_version] |})
    <->
    exists dyn version attr,
      tool_setuptools self "dynamic" (VDict []) = Ok (VDict dyn) /\
      Dict.lookup "version" dyn = Some (VDict version) /\
      Dict.lookup "attr" version = Some attr /\
      Py.truthy attr = false.
Proof.
  intros env self w. split.
  - unfold package_version, bind, lift, reading.
    destruct (tool_setuptools self "dynamic" (VDict [])) as [dynamic|e]; [|discriminate].
    destruct dynamic as [| | | | |dyn]; try discriminate. cbn [Py.get].
    destruct (Py.getitem "attr" _) as [attr|e] eqn:Hattr; [|discriminate].
    apply getitem_ok in Hattr as (version & Hversion & Hattr).
    destruct (Py.truthy attr) eqn:Htruthy.
    + intros H. exfalso.
      destruct (Py.split "." attr) as [dotted|e]; [|discriminate].
      destruct (_find_packages env self (fs w) _) as [paths|e]; [|discriminate].
      destruct (Dict.lookup _ paths) as [path|]; [|discriminate].
      inversion H as [[Hv Hw]]. now apply (log_grows_not w no_version).
    + intros _. exists dyn, version, attr. repeat split; auto.
      destruct (Dict.lookup "version" dyn) as [v|]; [now subst | discriminate].
  - intros (dyn & version & attr & Hdyn & Hversion & Hattr & Htruthy).
    unfold package_version, bind, lift. rewrite Hdyn. cbn. rewrite Hversion. cbn.
    rewrite Hattr, Htruthy. reflexivity.
Qed.

(** ** Reading without writing *)











(** ** The derived manifest in full *)




(** ** What discovery returns *)







Lemma discover_named env self f name find dirs d p acc :
  (acc = [] \/ exists q, acc = [(name, q)]) ->
  Forall (fun dir => exists q,
              find_package_path env name (VDict [("", dir)]) (_root_dir self) = Ok q)
         dirs ->
  find_package_path env name (VDict [("", d)]) (_root_dir self) = Ok p ->
  discover_packages env self f (Some name) find (dirs ++ [d]) acc = Ok [(name, p)].
Proof.
  intros Hacc Hdirs Hlast. revert acc Hacc.
  induction Hdirs as [|dir dirs [q Hq] _ IH]; intros acc Hacc.
  - cbn. rewrite Hlast. cbn.
    destruct Hacc as [->|[q ->]]; cbn; [reflexivity|].
    now rewrite String.eqb_refl.
  - cbn [app discover_packages rbind resolve_packages]. rewrite Hq. cbn [rbind].
    apply IH. right.
    destruct Hacc as [->|[q0 ->]]; cbn; [now exists q|].
    rewrite String.eqb_refl. now exists q.
Qed.

(** X7.  Under auto-discovery a package asked for by name, as the module
    of a dynamic version is, is never looked for on disk: each search
    root of [where] is tried in turn and the last one decides its
    directory.  With no search root at all nothing is found. *)
Theorem last_search_root_wins :
  forall env self f setup find,
    tool_setuptools self "packages" (VDict []) = Ok setup ->
    (forall listed, setup <> VList listed) ->
    Py.get "find" (VDict []) setup = Ok find ->
    (forall name dirs d p,
        Py.get "where" (VList [VStr "."]) find = Ok (VList (dirs ++ [d])) ->
        Forall (fun dir => exists q,
                    find_package_path env name (VDict [("", dir)]) (_root_dir self)
                    = Ok q) dirs ->
        find_package_path env name (VDict [("", d)]) (_root_dir self) = Ok p ->
        _find_packages env self f (Some name) = Ok [(name, p)]) /\
    (forall name,
        Py.get "where" (VList [VStr "."]) find = Ok (VList []) ->
        _find_packages env self f name = Ok []).
Proof.
  intros env self f setup find Hsetup Hnot Hfind.
  assert (Hbranch : forall name,
             _find_packages env self f name
             = (where_ <-? Py.get "where" (VList [VStr "."]) find ;;
                dirs <-? Py.iter where_ ;;
                discover_packages env self f name find dirs [])).
  { intros name. unfold _find_packages. rewrite Hsetup. cbn [rbind].
    destruct setup; try (now rewrite Hfind). now elim (Hnot l). }
  split.
  - intros name dirs d p Hwhere Hdirs Hlast. rewrite Hbranch, Hwhere. cbn [rbind Py.iter].
    apply discover_named; auto.
  - intros name Hwhere. rewrite Hbranch, Hwhere. reflexivity.
Qed.

(** ** Where the listed files come from *)

Lemma relative_files_spec env self f p files :
  relative_files env self f p = Ok files ->
  forall rel,
    In rel files <->
    exists x, In x p /\ is_file env f x = true /\
              PathOps.relative_to x (_root_dir self) = Ok rel.
Proof.
  revert files. induction p as [|x p IH]; cbn; intros files H rel.
  - inversion H; subst. split; [intros [] | intros (? & [] & _)].
  - destruct (is_file env f x) eqn:Hfile.
    + apply rbind_inv in H as (r & Hr & H).
      apply rbind_inv in H as (rest & Hrest & H).
      inversion H; subst; clear H. cbn. rewrite (IH _ Hrest rel). split.
      * intros [<-|(y & Hy & Hfy & Hry)]; [exists x | exists y]; auto.
      * intros (y & [<-|Hy] & Hfy & Hry); [left; congruence | right; now exists y].
    + rewrite (IH _ H rel). split.
      * intros (y & Hy & Hfy & Hry). exists y; auto.
      * intros (y & [<-|Hy] & Hfy & Hry); [congruence | now exists y].
Qed.

Lemma collect_files_spec env self f package_paths acc files :
  collect_files env self f package_paths acc = Ok files ->
  forall rel,
    In rel files <->
    In rel acc \/
    exists info dir x,
      In info package_paths /\
      PathOps.relative_to (PathOps.of_str (snd info)) (_root_dir self) = Ok dir /\
      In x (glob env f (_root_dir self) (PathOps.str dir +:+ "/*.py")) /\
      is_file env f x = true /\
      PathOps.relative_to x (_root_dir self) = Ok rel.
Proof.
  revert acc. induction package_paths as [|info rest IH]; cbn; intros acc H rel.
  - inversion H; subst. split; [now left | intros [?|(? & ? & ? & [] & _)]; auto].
  - apply rbind_inv in H as (dir & Hdir & H).
    apply rbind_inv in H as (found & Hfound & H).
    rewrite (IH _ H rel), in_app_iff, (relative_files_spec _ _ _ _ _ Hfound rel).
    split.
    + intros [[Hacc|(x & Hx & Hfile & Hrel)]|(i & d & x & Hi & Hd & Hx & Hfile & Hrel)].
      * now left.
      * right. exists info, dir, x. auto.
      * right. exists i, d, x. auto.
    + intros [Hacc|(i & d & x & [<-|Hi] & Hd & Hx & Hfile & Hrel)].
      * left. now left.
      * left. right. exists x. rewrite Hdir in Hd. inversion Hd; subst. auto.
      * right. exists i, d, x. auto.
Qed.

(** X8.  [package_files] lists exactly the regular files that the
    pattern [<package directory>/*.py] matches for the discovered
    packages, each relative to the project root: nothing from elsewhere,
    and none of those left out. *)
Theorem package_files_come_from_globs :
  forall env self f files,
    package_files env self f = Ok files ->
    exists package_paths,
      _find_packages env self f None = Ok package_paths /\
      forall rel,
        In rel files <->
        exists package path dir x,
          In (package, path) package_paths /\
          PathOps.relative_to (PathOps.of_str path) (_root_dir self) = Ok dir /\
          In x (glob env f (_root_dir self) (PathOps.str dir +:+ "/*.py")) /\
          is_file env f x = true /\
          PathOps.relative_to x (_root_dir self) = Ok rel.
Proof.
  intros env self f files H. unfold package_files in H.
  apply rbind_inv in H as (package_paths & Hpaths & H).
  exists package_paths. split; [exact Hpaths|].
  intros rel. rewrite (collect_files_spec _ _ _ _ _ _ H rel). split.
  - intros [[]|([package path] & dir & x & Hin & Hrest)].
    exists package, path, dir, x. auto.
  - intros (package & path & dir & x & Hin & Hrest).
    right. exists (package, path), dir, x. auto.
Qed.

(** The two sources of the sample package, and not its notes or its
    tests. *)
Lemma package_files_come_from_globs_witness :
  exists package_paths,
    _find_packages Sample.env Widget.plain Widget.files None = Ok package_paths /\
    forall rel,
      In rel [PathOps.of_str "widget/__init__.py"; PathOps.of_str "widget/core.py"] <->
      exists package path dir x,
        In (package, path) package_paths /\
        PathOps.relative_to (PathOps.of_str path) (_root_dir Widget.plain) = Ok dir /\
        In x (glob Sample.env Widget.files (_root_dir Widget.plain)
                (PathOps.str dir +:+ "/*.py")) /\
        is_file Sample.env Widget.files x = true /\
        PathOps.relative_to x (_root_dir Widget.plain) = Ok rel.
Proof.
  apply (package_files_come_from_globs Sample.env Widget.plain Widget.files).
  reflexivity.
Defined.

(** Two search roots: the module of the dynamic version is placed under
    the second, where the sample project has no such file. *)
Lemma last_search_root_wins_witness :
  _find_packages Sample.env Searched.instance Searched.files (Some "widget.version")
  = Ok [("widget.version", "./lib/widget/version")] /\
  fst (package_version Sample.env Searched.instance Searched.world)
  = Err FileNotFoundError.
Proof.
  split; [|reflexivity].
  destruct (last_search_root_wins Sample.env Searched.instance Searched.files
              (VDict [("find", VDict [("where", VList [VStr "src"; VStr "lib"])])])
              (VDict [("where", VList [VStr "src"; VStr "lib"])])
              eq_refl) as [Hlast _].
  - intros listed. discriminate.
  - reflexivity.
  - apply (Hlast "widget.version" [VStr "src"] (VStr "lib") "./lib/widget/version").
    + reflexivity.
    + constructor; [|constructor]. now exists "./src/widget/version".
    + reflexivity.
Defined.

(** ** Exclusion on any list *)

Lemma exclude_items_spec excludes items kept :
  exclude_items excludes items = Ok kept ->
  Subseq kept items /\
  (forall ele, In ele items ->
               exists hit, any_in_first excludes ele = Ok hit /\
                           (hit = false -> In ele kept)) /\
  Forall (fun ele => any_in_first excludes ele = Ok false) kept.
Proof.
  revert kept. induction items as [|ele rest IH]; cbn; intros kept H.
  - inversion H; subst. repeat split; [constructor | intros ? [] | constructor].
  - apply rbind_inv in H as (hit & Hhit & H).
    apply rbind_inv in H as (kept' & Hkept & H).
    inversion H; subst; clear H.
    destruct (IH _ Hkept) as (Hsub & Hall & Hnone).
    destruct hit; repeat split.
    + now constructor.
    + intros e [<-|Hin].
      * exists true. split; [assumption | discriminate].
      * apply Hall, Hin.
    + exact Hnone.
    + now constructor.
    + intros e [<-|Hin].
      * exists false. split; [assumption | intros _; now left].
      * destruct (Hall e Hin) as (h & Hh & Hk). exists h. split; [assumption|].
        intros Hf. right. auto.
    + now constructor.
Qed.

Lemma exclude_items_fixed excludes kept :
  Forall (fun ele => any_in_first excludes ele = Ok false) kept ->
  exclude_items excludes kept = Ok kept.
Proof.
  induction 1 as [|ele kept Hele _ IH]; [reflexivity|].
  cbn. rewrite Hele. cbn. now rewrite IH.
Qed.

Lemma exclude_items_empty_entry items :
  In (VList []) items -> exists e, exclude_items default_excludes items = Err e.
Proof.
  induction items as [|ele rest IH]; intros Hin; [contradiction|].
  destruct Hin as [->|Hin].
  - now exists IndexError.
  - destruct (IH Hin) as [e He]. cbn [exclude_items].
    destruct (any_in_first default_excludes ele) as [hit|e']; cbn [rbind].
    + rewrite He. now exists e.
    + now exists e'.
Qed.

(** X9.  On any list it accepts, the exclusion keeps a subsequence of
    the items in their order, namely those whose first element contains
    none of the two names, and running it again on its result changes
    nothing.  An entry without a first element, such as an empty list,
    makes it raise instead of being skipped. *)
Theorem exclusion_keeps_a_subsequence :
  forall items,
    (forall kept,
        _exclude_package_files (VList items) = Ok kept ->
        Subseq kept items /\
        (forall ele, In ele kept <->
                     In ele items /\ any_in_first default_excludes ele = Ok false) /\
        _exclude_package_files (VList kept) = Ok kept) /\
    (In (VList []) items ->
     exists e, _exclude_package_files (VList items) = Err e).
Proof.
  intros items. unfold _exclude_package_files. cbn [Py.iter rbind]. split.
  - intros kept H.
    destruct (exclude_items_spec _ _ _ H) as (Hsub & Hall & Hnone).
    split; [exact Hsub|]. split.
    + intros ele. split.
      * intros Hin. split.
        -- clear - Hsub Hin. induction Hsub; cbn in *; intuition.
        -- rewrite Forall_forall in Hnone. now apply Hnone.
      * intros [Hin Hmiss]. destruct (Hall ele Hin) as (hit & Hhit & Hkeep).
        apply Hkeep. congruence.
    + now apply exclude_items_fixed.
  - apply exclude_items_empty_entry.
Qed.

(** A board's manifest loses its boot and main scripts; an entry that is
    an empty list is an error. *)
Lemma exclusion_keeps_a_subsequence_witness :
  Subseq [VList [VStr "lib/core.py"; VStr "github:acme/widget/lib/core.py"]]
         Listed.board_urls /\
  (exists e, _exclude_package_files (VList (Listed.board_urls ++ [VList []])) = Err e).
Proof.
  split.
  - apply (proj1 (exclusion_keeps_a_subsequence Listed.board_urls)). reflexivity.
  - apply (proj2 (exclusion_keeps_a_subsequence (Listed.board_urls ++ [VList []]))).
    cbn. auto.
Defined.

(** ** What validation decides *)

Lemma eq_entry x y : Py.eq (url_entry x) (url_entry y) = true <-> x = y.
Proof.
  destruct x as [x1 x2], y as [y1 y2]. unfold url_entry. cbn.
  rewrite !andb_true_iff, !String.eqb_eq. split.
  - intros (-> & -> & _). reflexivity.
  - intros H. inversion H. auto.
Qed.

Lemma eq_entries a b :
  Py.eq (VList (map url_entry a)) (VList (map url_entry b)) = true <-> a = b.
Proof.
  revert b. induction a as [|x a IH]; intros [|y b].
  - split; reflexivity.
  - split; discriminate.
  - split; discriminate.
  - change ((Py.eq (url_entry x) (url_entry y) &&
             Py.eq (VList (map url_entry a)) (VList (map url_entry b))) = true
            <-> x :: a = y :: b).
    rewrite andb_true_iff, eq_entry, IH. split.
    + intros [-> ->]. reflexivity.
    + intros H. inversion H. auto.
Qed.

Lemma eq_sorted_entries a b :
  Py.eq (VList (map url_entry (entry_sort a)))
        (VList (map url_entry (entry_sort b))) = true
  <-> Permutation a b.
Proof.
  rewrite eq_entries. split.
  - intros H. rewrite (entry_sort_perm a), H. symmetry. apply entry_sort_perm.
  - apply entry_sort_permutation.
Qed.

(** The comparison of two manifests never raises, and what it answers. *)
Lemma compare_manifests_decides loaded target derived tdeps tversion ddeps dversion
    iv id ibm :
  Permutation loaded (manifest target tdeps tversion) ->
  exists b,
    compare_manifests iv id ibm loaded (manifest derived ddeps dversion) = Ok b /\
    (b = true <->
     Permutation (compared ibm target) (compared ibm derived) /\
     (id = true \/ Py.eq tdeps ddeps = true) /\
     (iv = true \/ Py.eq tversion dversion = true)).
Proof.
  intros Hkeys.
  apply three_orders in Hkeys;
    [| intros H; inversion H | intros H; inversion H | intros H; inversion H].
  unfold compare_manifests, exclude_urls, sort_urls, compared.
  destruct Hkeys as [->|[->|[->|[->|[->| ->]]]]];
    destruct iv, id, ibm;
    cbn [pop_if manifest Dict.pop Dict.lookup Dict.set String.eqb Ascii.eqb Bool.eqb
         rbind fst snd];
    rewrite ?exclude_package_files_entries;
    cbn [pop_if manifest Dict.pop Dict.lookup Dict.set String.eqb Ascii.eqb Bool.eqb
         rbind fst snd];
    rewrite ?sort_entries;
    cbn [pop_if manifest Dict.pop Dict.lookup Dict.set String.eqb Ascii.eqb Bool.eqb
         rbind fst snd];
    (eexists; split; [reflexivity|]);
    rewrite eq_dict_unfold;
    cbn [List.length Nat.eqb forallb Dict.lookup String.eqb Ascii.eqb Bool.eqb
         fst snd andb];
    rewrite ?andb_true_iff, eq_sorted_entries;
    intuition discriminate.
Qed.

(** X10.  On a target and a derived manifest whose [urls] are pairs of
    strings, [validate] never raises and answers [True] exactly when the
    two hold the same entries, each as often, after the boot and main
    entries are dropped if so asked, and deps and version are equal
    wherever they are not ignored.  The keys of the loaded document may
    come in any order. *)
Theorem validate_decides :
  forall env self w w1 w2 loaded target derived tdeps tversion ddeps dversion
         iv id ibm,
    package_json_data env self w = (Ok (VDict loaded), w1) ->
    Permutation loaded (manifest target tdeps tversion) ->
    package_data env self w1 = (Ok (VDict (manifest derived ddeps dversion)), w2) ->
    exists b,
      validate env self iv id ibm w = (Ok b, w2) /\
      (b = true <->
       Permutation (compared ibm target) (compared ibm derived) /\
       (id = true \/ Py.eq tdeps ddeps = true) /\
       (iv = true \/ Py.eq tversion dversion = true)).
Proof.
  intros env self w w1 w2 loaded target derived tdeps tversion ddeps dversion
         iv id ibm Hjson Hkeys Hdata.
  destruct (compare_manifests_decides loaded target derived tdeps tversion
              ddeps dversion iv id ibm Hkeys) as (b & Hb & Hiff).
  exists b. split; [|exact Hiff].
  unfold validate.
  rewrite (bind_ok _ _ _ _ _ Hjson). unfold lift at 1. cbn [bind Py.to_dict].
  rewrite (bind_ok _ _ _ _ _ Hdata). unfold lift. cbn [bind Py.to_dict].
  now rewrite Hb.
Qed.

(** The published manifest of the sample project is one version behind:
    validation fails. *)
Lemma validate_decides_witness :
  validate Sample.env Widget.with_manifest false false false Widget.published_world
  = (Ok false, Widget.published_world).
Proof.
  destruct (validate_decides Sample.env Widget.with_manifest
              Widget.published_world Widget.published_world Widget.published_world
              [("version", VStr "1.2.2");
               ("urls", VList (map url_entry
                                 [("widget/core.py", "github:acme/widget/widget/core.py");
                                  ("widget/__init__.py",
                                   "github:acme/widget/widget/__init__.py")]));
               ("deps", VList [VStr "urequests"])]
              [("widget/core.py", "github:acme/widget/widget/core.py");
               ("widget/__init__.py", "github:acme/widget/widget/__init__.py")]
              [("widget/__init__.py", "github:acme/widget/widget/__init__.py");
               ("widget/core.py", "github:acme/widget/widget/core.py")]
              (VList [VStr "urequests"]) (VStr "1.2.2")
              (VList [VStr "urequests"]) (VStr "1.2.3") false false false)
    as (b & Hb & Hiff).
  - vm_compute. reflexivity.
  - unfold manifest.
    apply (Permutation_cons_app [_; _] [] _). apply Permutation_refl.
  - vm_compute. reflexivity.
  - rewrite Hb. destruct b; [|reflexivity].
    destruct (proj1 Hiff eq_refl) as (_ & _ & [H|H]); discriminate.
Defined.

(** X11.  Ignoring more never turns a passing validation into a failing
    one: when [validate] answers [True], it still does with any further
    flag set. *)
Theorem ignoring_more_keeps_passing :
  forall env self w w1 w2 loaded target derived tdeps tversion ddeps dversion
         iv id ibm iv' id' ibm',
    package_json_data env self w = (Ok (VDict loaded), w1) ->
    Permutation loaded (manifest target tdeps tversion) ->
    package_data env self w1 = (Ok (VDict (manifest derived ddeps dversion)), w2) ->
    (iv = true -> iv' = true) ->
    (id = true -> id' = true) ->
    (ibm = true -> ibm' = true) ->
    validate env self iv id ibm w = (Ok true, w2) ->
    validate env self iv' id' ibm' w = (Ok true, w2).
Proof.
  intros env self w w1 w2 loaded target derived tdeps tversion ddeps dversion
         iv id ibm iv' id' ibm' Hjson Hkeys Hdata Hiv Hid Hibm Hpass.
  assert (Hrun : forall a b c,
             validate env self a b c w
             = (compare_manifests a b c loaded (manifest derived ddeps dversion), w2)).
  { intros a b c. unfold validate.
    rewrite (bind_ok _ _ _ _ _ Hjson). unfold lift at 1. cbn [bind Py.to_dict].
    rewrite (bind_ok _ _ _ _ _ Hdata). reflexivity. }
  rewrite Hrun in Hpass. rewrite Hrun.
  destruct (compare_manifests_decides loaded target derived tdeps tversion
              ddeps dversion iv id ibm Hkeys) as (b & Hb & Hiff).
  destruct (compare_manifests_decides loaded target derived tdeps tversion
              ddeps dversion iv' id' ibm' Hkeys) as (b' & Hb' & Hiff').
  rewrite Hb in Hpass. inversion Hpass; subst b.
  rewrite Hb'. f_equal. f_equal. apply Hiff'.
  destruct (proj1 Hiff eq_refl) as (Hp & Hd & Hv).
  split; [|split].
  - unfold compared in *. destruct ibm, ibm'; auto.
    + discriminate (Hibm eq_refl).
    + now apply filter_permutation.
  - destruct Hd as [Hd|Hd]; auto.
  - destruct Hv as [Hv|Hv]; auto.
Qed.

(** The published manifest passes with the version ignored, and so it
    does with everything ignored. *)
Lemma ignoring_more_keeps_passing_witness :
  validate Sample.env Widget.with_manifest true true true Widget.published_world
  = (Ok true, Widget.published_world).
Proof.
  apply (ignoring_more_keeps_passing Sample.env Widget.with_manifest
           Widget.published_world Widget.published_world Widget.published_world
           [("version", VStr "1.2.2");
            ("urls", VList (map url_entry
                              [("widget/core.py", "github:acme/widget/widget/core.py");
                               ("widget/__init__.py",
                                "github:acme/widget/widget/__init__.py")]));
            ("deps", VList [VStr "urequests"])]
           [("widget/core.py", "github:acme/widget/widget/core.py");
            ("widget/__init__.py", "github:acme/widget/widget/__init__.py")]
           [("widget/__init__.py", "github:acme/widget/widget/__init__.py");
            ("widget/core.py", "github:acme/widget/widget/core.py")]
           (VList [VStr "urequests"]) (VStr "1.2.2")
           (VList [VStr "urequests"]) (VStr "1.2.3")
           true false false true true true).
  - vm_compute. reflexivity.
  - unfold manifest.
    apply (Permutation_cons_app [_; _] [] _). apply Permutation_refl.
  - vm_compute. reflexivity.
  - auto.
  - discriminate.
  - discriminate.
  - vm_compute. reflexivity.
Defined.

(** ** What [create] does to the disk *)


(** [create], step by step: the target is settled, opened and thereby
    emptied, the manifest is derived, serialised and written. *)
Lemma create_unfold env self output_path pretty w :
  exists l0,
    create env self output_path pretty w
    = let target := create_target self output_path in
      if can_open_w env (fs w) target then
        match package_data env self
                {| fs := Files.put target "" (fs w); log := l0 |} with
        | (Ok d, w') =>
            match json_dumps env (if pretty then Some 4%nat else None) d with
            | Ok text =>
                (Ok tt, {| fs := Files.put target text (fs w'); log := log w' |})
            | Err e => (Err e, w')
            end
        | (Err e, w') => (Err e, w')
        end
      else (Err OSError, {| fs := fs w; log := l0 |}).
Proof.
  unfold create, create_target.
  destruct output_path as [p|]; [|destruct (_package_file self) as [p|]].
  - exists (log w). unfold bind at 1. unfold ret at 1. unfold bind at 1. unfold open_w.
    destruct (can_open_w env (fs w) p); [|now rewrite world_eta].
    unfold bind, lift, write. cbn [fs log].
    destruct (package_data env self _) as [[d|e] w']; [|reflexivity].
    destruct (json_dumps env _ d); reflexivity.
  - exists (log w). unfold bind at 1. unfold ret at 1. unfold bind at 1. unfold open_w.
    destruct (can_open_w env (fs w) p); [|now rewrite world_eta].
    unfold bind, lift, write. cbn [fs log].
    destruct (package_data env self _) as [[d|e] w']; [|reflexivity].
    destruct (json_dumps env _ d); reflexivity.
  - exists (log w ++ [(INFO, "No package.json data specified, using setup.py directory")]).
    unfold bind at 1. unfold bind at 1. unfold logger at 1. unfold ret at 1.
    unfold bind at 1. unfold open_w. cbn [fs log].
    destruct (can_open_w env (fs w) _); [|reflexivity].
    unfold bind, lift, write. cbn [fs log].
    destruct (package_data env self _) as [[d|e] w']; [|reflexivity].
    destruct (json_dumps env _ d); reflexivity.
Qed.

(** X12.  [create] opens its target before it derives anything.  When
    the target cannot be opened, no file changes.  When the derivation
    or the serialisation then raises, [create] raises the same, and the
    target is left behind empty: a manifest that was there is lost. *)
Theorem failed_create_empties_target :
  forall env self output_path pretty w,
    let target := create_target self output_path in
    let opened := {| fs := Files.put target "" (fs w); log := [] |} in
    (can_open_w env (fs w) target = false ->
     fst (create env self output_path pretty w) = Err OSError /\
     fs (snd (create env self output_path pretty w)) = fs w) /\
    (can_open_w env (fs w) target = true ->
     forall e,
       fst (package_data env self opened) = Err e \/
       (exists d, fst (package_data env self opened) = Ok d /\
                  json_dumps env (if pretty then Some 4%nat else None) d = Err e) ->
       fst (create env self output_path pretty w) = Err e /\
       Files.read target (fs (snd (create env self output_path pretty w))) = Ok "").
Proof.
  intros env self output_path pretty w target opened.
  destruct (create_unfold env self output_path pretty w) as [l0 Hcreate].
  rewrite Hcreate. cbv zeta. fold target. split.
  - intros ->. now split.
  - intros -> e Hfail.
    destruct (steady_package_data env self (Files.put target "" (fs w)) l0 [])
      as [Hsame Hfs].
    fold opened in Hsame.
    destruct (package_data env self {| fs := Files.put target "" (fs w); log := l0 |})
      as [r w'].
    cbn [fst snd] in Hsame, Hfs.
    assert (Hread : Files.read target (fs w') = Ok "").
    { rewrite Hfs. unfold Files.read, Files.put. now rewrite lookup_set. }
    destruct Hfail as [Hfail|(d & Hd & Hdumps)]; rewrite <- Hsame in *; subst r.
    + now split.
    + rewrite Hdumps. now split.
Qed.

(** The sample project without its [project] table: [create] ends with
    [SystemExit] and the manifest that was published is gone. *)
Lemma failed_create_empties_target_witness :
  Files.read Widget.manifest_file (fs Widget.published_world)
  = Ok (Sample.dumps_at None 0 Widget.published) /\
  fst (create Sample.env Widget.without_project (Some Widget.manifest_file) true
         Widget.published_world)
  = Err (SystemExit "Project URL is mandatory") /\
  Files.read Widget.manifest_file
    (fs (snd (create Sample.env Widget.without_project (Some Widget.manifest_file) true
                Widget.published_world)))
  = Ok "".
Proof.
  split; [reflexivity|].
  apply (proj2 (failed_create_empties_target Sample.env Widget.without_project
                  (Some Widget.manifest_file) true Widget.published_world)).
  - reflexivity.
  - left. reflexivity.
Defined.



(** ** A manifest just written validates *)

Lemma wf_manifest_parts d urls deps version :
  d = VDict [("urls", urls); ("deps", deps); ("version", version)] ->
  wf_value d -> wf_value deps /\ wf_value version.
Proof. intros -> Hwf. cbn in Hwf. tauto. Qed.

(** X14.  A manifest that [create] has just written to the instance's
    own manifest file passes [validate] under every choice of flags.
    As for the round trip, the derivation is taken not to read the
    manifest's text and [json] to read back what it wrote; the derived
    values hold no dict with a repeated key. *)
Theorem created_manifest_validates :
  forall env self package_file output_path pretty w w1 d w2 iv id ibm,
    _package_file self = Some package_file ->
    (output_path = None \/ output_path = Some package_file) ->
    derivation_ignores env self package_file (fs w) ->
    create env self output_path pretty w = (Ok tt, w1) ->
    package_data env self w1 = (Ok d, w2) ->
    json_faithful env (if pretty then Some 4%nat else None) d ->
    wf_value d ->
    validate env self iv id ibm w1 = (Ok true, w2).
Proof.
  intros env self package_file output_path pretty w w1 d w2 iv id ibm
         Hfile Hout Hignores Hcreate Hd Hjson Hwf.
  destruct (create_inv _ _ _ _ _ _ _ Hfile Hout Hcreate)
    as (d0 & l0 & text & Hd0 & Htext & Hfs).
  assert (Hsame : d0 = d).
  { assert (Hfresh : fst (package_data env self w1) = Ok d0).
    { destruct w1 as [f1 l1]. cbn in Hfs. subst f1.
      rewrite (proj1 (steady_package_data env self _ l1 [])).
      rewrite (Hignores text).
      rewrite (proj1 (steady_package_data env self _ [] l0)). exact Hd0. }
    rewrite Hd in Hfresh. now inversion Hfresh. }
  subst d0.
  assert (Hload : package_json_data env self w1 = (Ok d, w1)).
  { unfold package_json_data. rewrite Hfile.
    unfold bind, reading, lift, Files.read. rewrite Hfs.
    unfold Files.put. rewrite lookup_set. now rewrite (Hjson text Htext). }
  destruct (package_data_inv _ _ _ _ _ Hd) as (files & version & deps & url & _ & Hshape).
  destruct (wf_manifest_parts _ _ _ _ Hshape Hwf) as [Hwd Hwv].
  assert (Hentries :
            map (url_element url) files
            = map url_entry
                (map (fun file =>
                        (PathOps.str file,
                         PathOps.str (PathOps.join (PathOps.of_str url) file))) files)).
  { rewrite map_map. reflexivity. }
  rewrite Hentries in Hshape. subst d.
  unfold validate.
  rewrite (bind_ok _ _ _ _ _ Hload). unfold lift at 1. cbn [bind Py.to_dict].
  rewrite (bind_ok _ _ _ _ _ Hd). unfold lift. cbn [bind Py.to_dict].
  fold (manifest
          (map (fun file =>
                  (PathOps.str file,
                   PathOps.str (PathOps.join (PathOps.of_str url) file))) files)
          deps version).
  rewrite (compare_manifests_permuted _ _ deps version deps version iv id ibm
             (Permutation_refl _) (or_intror eq_refl) (or_intror eq_refl) Hwd Hwv).
  reflexivity.
Qed.

(** The sample project written and then validated with nothing
    ignored. *)
Lemma created_manifest_validates_witness :
  let w1 := snd (create Sample.env Widget.with_manifest None true Widget.world) in
  validate Sample.env Widget.with_manifest false false false w1 = (Ok true, w1).
Proof.
  intros w1.
  apply (created_manifest_validates Sample.env Widget.with_manifest
           Widget.manifest_file None true Widget.world w1 (Widget.expected "1.2.3") w1).
  - reflexivity.
  - now left.
  - intros text. reflexivity.
  - reflexivity.
  - reflexivity.
  - intros text Htext. inversion Htext; subst. reflexivity.
  - cbn. repeat split; try exact I.
    repeat constructor; cbn; intuition discriminate.
Defined.

(** ** The shape of the URLs *)







(** ** Loading the dynamic version *)

(** X16.  With an explicit package list and a dynamic version
    [attr = "<module>.<name>"], [package_version] places the module
    through [package-dir] alone, whether or not the list names it, and
    returns the attribute [<name>] of the source file
    [<directory>.py]; it logs nothing. *)
Theorem package_version_loads_module :
  forall env self w dyn version attr listed package_dir,
    tool_setuptools self "dynamic" (VDict []) = Ok (VDict dyn) ->
    Dict.lookup "version" dyn = Some (VDict version) ->
    Dict.lookup "attr" version = Some (VStr attr) ->
    attr <> "" ->
    tool_setuptools self "packages" (VDict []) = Ok (VList listed) ->
    tool_setuptools self "package-dir" (VDict [("", VStr ".")]) = Ok package_dir ->
    package_version env self w
    = (directory <-? find_package_path env
                       (Str.join "." (removelast (Str.split "." attr)))
                       package_dir (_root_dir self) ;;
       load_module_attr env (fs w) (directory +:+ ".py")
         (last (Str.split "." attr) ""),
       w).
Proof.
  intros env self w dyn version attr listed package_dir
         Hdyn Hversion Hattr Hne Hlisted Hdir.
  unfold package_version, bind, lift, reading.
  rewrite Hdyn. cbn [Py.get]. rewrite Hversion. cbn [Py.getitem]. rewrite Hattr.
  assert (Py.truthy (VStr attr) = true) as ->.
  { cbn. now rewrite (proj2 (String.eqb_neq _ _) Hne). }
  cbn [Py.split]. unfold _find_packages. rewrite Hlisted. cbn [rbind]. rewrite Hdir.
  cbn [rbind resolve_packages].
  destruct (find_package_path env _ package_dir (_root_dir self)) as [directory|e];
    cbn [rbind]; [|reflexivity].
  cbn [Dict.set Dict.lookup]. now rewrite String.eqb_refl.
Qed.

(** The sample project reads [__version__] from [widget/version.py],
    a module its package list does not name. *)
Lemma package_version_loads_module_witness :
  package_version Sample.env Widget.dynamic Widget.versioned_world
  = (Ok (VStr "2.0.1"), Widget.versioned_world).
Proof.
  rewrite (package_version_loads_module Sample.env Widget.dynamic Widget.versioned_world
             [("version", VDict [("attr", VStr "widget.version.__version__")])]
             [("attr", VStr "widget.version.__version__")]
             "widget.version.__version__" [VStr "widget"] (VDict [("", VStr ".")]));
    try reflexivity.
  discriminate.
Defined.

(** ** Packages outside the project root *)







(** ** Running twice *)



(** ** The order of the directory *)

(** X19.  The answer of [validate] does not depend on the order in which
    the files were discovered: two derivations that hold the same
    entries in different orders, against the same loaded manifest, get
    the same answer under the same flags. *)
Theorem validate_ignores_discovery_order :
  forall env self w w1 w2 v v1 v2 loaded target tdeps tversion
         derived derived' ddeps dversion iv id ibm,
    package_json_data env self w = (Ok (VDict loaded), w1) ->
    package_data env self w1 = (Ok (VDict (manifest derived ddeps dversion)), w2) ->
    package_json_data env self v = (Ok (VDict loaded), v1) ->
    package_data env self v1 = (Ok (VDict (manifest derived' ddeps dversion)), v2) ->
    Permutation loaded (manifest target tdeps tversion) ->
    Permutation derived derived' ->
    fst (validate env self iv id ibm w) = fst (validate env self iv id ibm v).
Proof.
  intros env self w w1 w2 v v1 v2 loaded target tdeps tversion
         derived derived' ddeps dversion iv id ibm Hjw Hdw Hjv Hdv Hkeys Hperm.
  assert (Hrun : forall a a1 a2 d,
             package_json_data env self a = (Ok (VDict loaded), a1) ->
             package_data env self a1 = (Ok (VDict (manifest d ddeps dversion)), a2) ->
             fst (validate env self iv id ibm a)
             = compare_manifests iv id ibm loaded (manifest d ddeps dversion)).
  { intros a a1 a2 d Hj Hd. unfold validate.
    rewrite (bind_ok _ _ _ _ _ Hj). unfold lift at 1. cbn [bind Py.to_dict].
    rewrite (bind_ok _ _ _ _ _ Hd). reflexivity. }
  rewrite (Hrun _ _ _ _ Hjw Hdw), (Hrun _ _ _ _ Hjv Hdv).
  destruct (compare_manifests_decides loaded target derived tdeps tversion
              ddeps dversion iv id ibm Hkeys) as (b & -> & Hb).
  destruct (compare_manifests_decides loaded target derived' tdeps tversion
              ddeps dversion iv id ibm Hkeys) as (b' & -> & Hb').
  f_equal.
  assert (Hflt : Permutation (compared ibm derived) (compared ibm derived')).
  { unfold compared. destruct ibm; [now apply filter_permutation | exact Hperm]. }
  destruct b, b'; try reflexivity.
  - symmetry. apply Hb'. destruct (proj1 Hb eq_refl) as (Hp & Hd & Hv).
    split; [|now split]. now rewrite Hp.
  - apply Hb. destruct (proj1 Hb' eq_refl) as (Hp & Hd & Hv).
    split; [|now split]. now rewrite Hp, Hflt.
Qed.

(** The sample project read in two directory orders against the same
    published manifest. *)
Lemma validate_ignores_discovery_order_witness :
  fst (validate Sample.env Widget.with_manifest true false false Widget.published_world)
  = fst (validate Sample.env Widget.with_manifest true false false
           {| fs := Listed.files_reordered; log := [] |}).
Proof.
  apply (validate_ignores_discovery_order Sample.env Widget.with_manifest
           Widget.published_world Widget.published_world Widget.published_world
           {| fs := Listed.files_reordered; log := [] |}
           {| fs := Listed.files_reordered; log := [] |}
           {| fs := Listed.files_reordered; log := [] |}
           [("version", VStr "1.2.2");
            ("urls", VList (map url_entry
                              [("widget/core.py", "github:acme/widget/widget/core.py");
                               ("widget/__init__.py",
                                "github:acme/widget/widget/__init__.py")]));
            ("deps", VList [VStr "urequests"])]
           [("widget/core.py", "github:acme/widget/widget/core.py");
            ("widget/__init__.py", "github:acme/widget/widget/__init__.py")]
           (VList [VStr "urequests"]) (VStr "1.2.2")
           [("widget/__init__.py", "github:acme/widget/widget/__init__.py");
            ("widget/core.py", "github:acme/widget/widget/core.py")]
           [("widget/core.py", "github:acme/widget/widget/core.py");
            ("widget/__init__.py", "github:acme/widget/widget/__init__.py")]
           (VList [VStr "urequests"]) (VStr "1.2.3")).
  - vm_compute. reflexivity.
  - vm_compute. reflexivity.
  - vm_compute. reflexivity.
  - vm_compute. reflexivity.
  - unfold manifest.
    apply (Permutation_cons_app [_; _] [] _). apply Permutation_refl.
  - apply perm_swap.
Defined.
